(** * tenantfollow: every user of a tenant follows one SharePoint site

    A shallow embedding of [tenantfollow.py].  The script talks to the
    outside world only through [requests.post], [requests.get] and
    [print]; the embedding threads a chronological trace of those events
    through a small state-and-exception monad, and takes the remote side
    (identity provider and Graph API) as an arbitrary deterministic
    function of the requests issued so far. *)

From Stdlib Require Import List String Ascii ZArith Lia Bool PrimFloat.
Import ListNotations.
Open Scope string_scope.
Open Scope Z_scope.
Open Scope list_scope.
Set Warnings "-register-all".

(** ** Python values decoded from JSON *)

(** What [resp.json()] can return.  A dict is kept as the list of its
    items in insertion order; a lookup takes the first binding of the
    key.  A [str] is a Rocq string, one [ascii] per character. *)
Inductive pyval : Type :=
| JNull
| JBool (b : bool)
| JInt (n : Z)
| JFloat (f : float)
| JStr (s : string)
| JArr (items : list pyval)
| JObj (fields : list (string * pyval)).

Inductive exn : Type :=
| HTTPError (status : Z)      (* resp.raise_for_status() *)
| RequestException            (* requests.get / requests.post itself raised *)
| JSONDecodeError             (* resp.json() on a body that is not JSON *)
| KeyError (key : string)     (* d[key] on a dict without the key *)
| TypeError                   (* subscripting or iterating the wrong type *)
| AttributeError.             (* .get on something that is not a dict *)

Fixpoint dict_get (fields : list (string * pyval)) (key : string) : option pyval :=
  match fields with
  | [] => None
  | (k, v) :: rest => if String.eqb k key then Some v else dict_get rest key
  end.

(** [v[key]] for a [str] key. *)
Definition subscript (v : pyval) (key : string) : exn + pyval :=
  match v with
  | JObj fields =>
      match dict_get fields key with
      | Some x => inr x
      | None => inl (KeyError key)
      end
  | _ => inl TypeError
  end.

(** [v.get(key, default)]; only a dict has the method. *)
Definition py_get (v : pyval) (key : string) (default : pyval) : exn + pyval :=
  match v with
  | JObj fields =>
      match dict_get fields key with
      | Some x => inr x
      | None => inr default
      end
  | _ => inl AttributeError
  end.

Fixpoint chars (s : string) : list pyval :=
  match s with
  | EmptyString => []
  | String c rest => JStr (String c EmptyString) :: chars rest
  end.

(** The keys of a dict, each once, in insertion order. *)
Fixpoint keys (seen : list string) (fields : list (string * pyval)) : list pyval :=
  match fields with
  | [] => []
  | (k, _) :: rest =>
      if existsb (String.eqb k) seen then keys seen rest
      else JStr k :: keys (k :: seen) rest
  end.

(** The elements [list.extend(v)] appends. *)
Definition py_iter (v : pyval) : exn + list pyval :=
  match v with
  | JArr items => inr items
  | JStr s => inr (chars s)
  | JObj fields => inr (keys [] fields)
  | _ => inl TypeError
  end.

(** Truth value, as tested by [while url:]. *)
Definition truthy (v : pyval) : bool :=
  match v with
  | JNull => false
  | JBool b => b
  | JInt n => negb (n =? 0)
  | JFloat f => negb (PrimFloat.eqb f PrimFloat.zero)
  | JStr s => negb (String.eqb s "")
  | JArr items => match items with [] => false | _ => true end
  | JObj fields => match fields with [] => false | _ => true end
  end.

(** ** Formatted strings *)

(** An f-string, kept as its literal pieces and the values interpolated
    between them (each rendered by [str()] when the string is built). *)
Inductive piece : Type :=
| Lit (s : string)
| Fmt (v : pyval).

Definition fstr : Type := list piece.

Definition newline : string := String (ascii_of_nat 10) EmptyString.

(** ** Requests, responses and the trace *)

Inductive Method : Type := GET | POST.

Inductive payload : Type :=
| NoData
| FormData (fields : list (string * string))   (* data=<dict> *)
| JsonDumps (v : pyval).                       (* data=json.dumps(v) *)

Definition header_map : Type := list (string * fstr).

Record Request : Type := mkRequest {
  method : Method;
  url : fstr;
  headers : option header_map;
  data : payload
}.

(** [json] is what [resp.json()] decodes from the body, [None] when the
    body is not JSON. *)
Record Response : Type := mkResponse {
  status_code : Z;
  text : string;
  json : option pyval
}.

Inductive reply : Type :=
| Reply (r : Response)
| NoReply.                  (* the call raised: no connection, bad URL ... *)

Inductive event : Type :=
| EvHttp (rq : Request)
| EvPrint (line : fstr).

Definition trace : Type := list event.

Fixpoint requests_of (tr : trace) : list Request :=
  match tr with
  | [] => []
  | EvHttp rq :: rest => rq :: requests_of rest
  | EvPrint _ :: rest => requests_of rest
  end.

(** ** The monad *)

Inductive outcome (A : Type) : Type :=
| Returned (a : A)
| Raised (e : exn)
| Diverged.                 (* the loop budget ran out *)

Arguments Returned {A} a.
Arguments Raised {A} e.
Arguments Diverged {A}.

Definition M (A : Type) : Type := trace -> outcome A * trace.

Definition ret {A : Type} (a : A) : M A := fun tr => (Returned a, tr).

Definition raise {A : Type} (e : exn) : M A := fun tr => (Raised e, tr).

Definition bind {A B : Type} (m : M A) (k : A -> M B) : M B :=
  fun tr =>
    match m tr with
    | (Returned a, tr') => k a tr'
    | (Raised e, tr') => (Raised e, tr')
    | (Diverged, tr') => (Diverged, tr')
    end.

Definition lift {A : Type} (x : exn + A) : M A :=
  match x with
  | inl e => raise e
  | inr a => ret a
  end.

Notation "x <- m ;; k" := (bind m (fun x => k))
  (at level 61, m at next level, right associativity).
Notation "m ;;; k" := (bind m (fun _ => k))
  (at level 61, right associativity).

Definition print (line : fstr) : M unit :=
  fun tr => (Returned tt, tr ++ [EvPrint line]).

(** [resp.raise_for_status()]: requests raises for 4xx and 5xx only. *)
Definition raise_for_status (resp : Response) : M unit :=
  if (400 <=? status_code resp) && (status_code resp <? 600)
  then raise (HTTPError (status_code resp))
  else ret tt.

Definition resp_json (resp : Response) : M pyval :=
  match json resp with
  | Some v => ret v
  | None => raise JSONDecodeError
  end.

(** ** Sample remote sides *)

(** Stateless remote sides, used to run the script on concrete inputs:
    one reply for the token call, one per listing URL, one per user for
    the follow call. *)
Record scenario : Type := mkScenario {
  sc_token : reply;
  sc_page : string -> reply;
  sc_follow : pyval -> reply
}.

Definition scenario_server (sc : scenario) (_ : list Request) (rq : Request)
  : reply :=
  match method rq, url rq, data rq with
  | POST, _, FormData _ => sc_token sc
  | GET, [Fmt (JStr u)], NoData => sc_page sc u
  | POST, [_; _; Fmt user_id; _], JsonDumps _ => sc_follow sc user_id
  | _, _, _ => NoReply
  end.

Definition dq : string := String (ascii_of_nat 34) EmptyString.

Definition quoted (s : string) : string := (dq ++ s ++ dq)%string.

Definition field_text (k v : string) : string := (quoted k ++ ": " ++ v)%string.

Definition token_body (tok : string) : Response :=
  mkResponse 200 ("{" ++ field_text "access_token" (quoted tok) ++ "}")%string
    (Some (JObj [("access_token", JStr tok)])).

Definition user (id upn : string) : pyval :=
  JObj [("id", JStr id); ("userPrincipalName", JStr upn)].

Definition user_text (id upn : string) : string :=
  ("{" ++ field_text "id" (quoted id) ++ ", "
       ++ field_text "userPrincipalName" (quoted upn) ++ "}")%string.

Definition u1 : pyval := user "u1" "a@x.com".
Definition u2 : pyval := user "u2" "b@x.com".
Definition u3 : pyval := user "u3" "c@x.com".

Definition users_endpoint : string := "https://graph.microsoft.com/beta/users".
Definition second_page : string := "https://graph.microsoft.com/beta/users?$skiptoken=p2".

(** One page holding u1 and u2. *)
Definition page_u1_u2 : Response :=
  mkResponse 200
    ("{" ++ field_text "value"
              ("[" ++ user_text "u1" "a@x.com" ++ ", " ++ user_text "u2" "b@x.com" ++ "]")
         ++ "}")%string
    (Some (JObj [("value", JArr [u1; u2])])).

(** The same page with a link to [second_page]. *)
Definition page_u1_u2_more : Response :=
  mkResponse 200
    ("{" ++ field_text "value"
              ("[" ++ user_text "u1" "a@x.com" ++ ", " ++ user_text "u2" "b@x.com" ++ "]")
         ++ ", " ++ field_text "@odata.nextLink" (quoted second_page) ++ "}")%string
    (Some (JObj [("value", JArr [u1; u2]); ("@odata.nextLink", JStr second_page)])).

Definition page_u3 : Response :=
  mkResponse 200
    ("{" ++ field_text "value" ("[" ++ user_text "u3" "c@x.com" ++ "]") ++ "}")%string
    (Some (JObj [("value", JArr [u3])])).

(** 204 for u1, 403 with a plain-text body for everybody else. *)
Definition is_user (id : string) (v : pyval) : bool :=
  match v with
  | JStr s => String.eqb s id
  | _ => false
  end.

Definition follow_u1_only (user_id : pyval) : reply :=
  Reply (if is_user "u1" user_id
         then mkResponse 204 "" None
         else mkResponse 403 "Forbidden" None).

Definition one_page (u : string) : reply :=
  if String.eqb u users_endpoint then Reply page_u1_u2 else NoReply.

Definition two_pages (u : string) : reply :=
  if String.eqb u users_endpoint then Reply page_u1_u2_more
  else if String.eqb u second_page then Reply page_u3
  else NoReply.

(** Token T1, one page with u1 and u2, follow refused for u2. *)
Definition single_page_run : scenario :=
  mkScenario (Reply (token_body "T1")) one_page follow_u1_only.

(** Token T1, u1 and u2 on the first page, u3 on the second. *)
Definition two_page_run : scenario :=
  mkScenario (Reply (token_body "T1")) two_pages follow_u1_only.

(** The constants as the script ships them. *)
Definition tenant : string := "YOUR_TENANT_ID".
Definition client : string := "YOUR_APPLICATION_ID".
Definition secret : string := "YOUR_APPLICATION_SECRET".
Definition site : string := "YOUR_SITE_ID".

Definition one_page_listing : list (string * list pyval) :=
  [(users_endpoint, [u1; u2])].

Definition two_page_listing : list (string * list pyval) :=
  [(users_endpoint, [u1; u2]); (second_page, [u3])].

(** The token endpoint answers 401. *)
Definition unauthorized : Response := mkResponse 401 "Unauthorized" None.

Definition refused_token_run : scenario :=
  mkScenario (Reply unauthorized) one_page follow_u1_only.

(** The token endpoint answers 300, with a token in the body. *)
Definition token_body_300 : Response :=
  mkResponse 300 (text (token_body "T1")) (json (token_body "T1")).

Definition soft_token_run : scenario :=
  mkScenario (Reply token_body_300) one_page follow_u1_only.

(** The token endpoint answers 200 with an empty [access_token]. *)
Definition empty_token_run : scenario :=
  mkScenario (Reply (token_body "")) one_page follow_u1_only.

(** The second page of the listing is refused with 503. *)
Definition unavailable : Response := mkResponse 503 "Service Unavailable" None.

Definition refused_page (u : string) : reply :=
  if String.eqb u users_endpoint then Reply page_u1_u2_more
  else if String.eqb u second_page then Reply unavailable
  else NoReply.

Definition refused_page_run : scenario :=
  mkScenario (Reply (token_body "T1")) refused_page follow_u1_only.

(** The listing answers 300, with u1 and u2 in the body. *)
Definition page_300 : Response :=
  mkResponse 300 (text page_u1_u2) (json page_u1_u2).

Definition soft_page_run : scenario :=
  mkScenario (Reply (token_body "T1"))
    (fun u => if String.eqb u users_endpoint then Reply page_300 else NoReply)
    follow_u1_only.

(** The listing answers 200 with an object that has no [value]. *)
Definition page_without_value : Response := mkResponse 200 "{}" (Some (JObj [])).

Definition no_value_run : scenario :=
  mkScenario (Reply (token_body "T1"))
    (fun u => if String.eqb u users_endpoint then Reply page_without_value else NoReply)
    follow_u1_only.

(** The second of three records has no [id]. *)
Definition nameless : list (string * pyval) := [("userPrincipalName", JStr "b@x.com")].

Definition page_missing_id : Response :=
  mkResponse 200
    ("{" ++ field_text "value"
              ("[" ++ user_text "u1" "a@x.com" ++ ", {"
                   ++ field_text "userPrincipalName" (quoted "b@x.com") ++ "}, "
                   ++ user_text "u3" "c@x.com" ++ "]")
         ++ "}")%string
    (Some (JObj [("value", JArr [u1; JObj nameless; u3])])).

Definition missing_id_run : scenario :=
  mkScenario (Reply (token_body "T1"))
    (fun u => if String.eqb u users_endpoint then Reply page_missing_id else NoReply)
    follow_u1_only.

(** No answer at all from the token endpoint. *)
Definition offline_run : scenario :=
  mkScenario NoReply one_page follow_u1_only.

(** A page whose next-page link is the empty string. *)
Definition page_empty_link : Response :=
  mkResponse 200
    ("{" ++ field_text "value"
              ("[" ++ user_text "u1" "a@x.com" ++ ", " ++ user_text "u2" "b@x.com" ++ "]")
         ++ ", " ++ field_text "@odata.nextLink" (quoted "") ++ "}")%string
    (Some (JObj [("value", JArr [u1; u2]); ("@odata.nextLink", JStr "")])).

Definition empty_link_run : scenario :=
  mkScenario (Reply (token_body "T1"))
    (fun u => if String.eqb u users_endpoint then Reply page_empty_link else NoReply)
    follow_u1_only.

(** A page whose [value] is null. *)
Definition page_null_value : Response :=
  mkResponse 200 ("{" ++ field_text "value" "null" ++ "}")%string
    (Some (JObj [("value", JNull)])).

Definition null_value_run : scenario :=
  mkScenario (Reply (token_body "T1"))
    (fun u => if String.eqb u users_endpoint then Reply page_null_value else NoReply)
    follow_u1_only.

(** Every listing URL answers with a page that links further. *)
Definition looping_run : scenario :=
  mkScenario (Reply (token_body "T1")) (fun _ => Reply page_u1_u2_more)
    follow_u1_only.

(** The first page links to a second one that never answers. *)
Definition dropped_page_run : scenario :=
  mkScenario (Reply (token_body "T1"))
    (fun u => if String.eqb u users_endpoint then Reply page_u1_u2_more else NoReply)
    follow_u1_only.

(** The follow call is answered for u1 only. *)
Definition dropped_follow_run : scenario :=
  mkScenario (Reply (token_body "T1")) one_page
    (fun i => if is_user "u1" i then Reply (mkResponse 204 "" None) else NoReply).

(** The second of three records is a string, not an object. *)
Definition page_bad_record : Response :=
  mkResponse 200
    ("{" ++ field_text "value"
              ("[" ++ user_text "u1" "a@x.com" ++ ", " ++ quoted "oops" ++ ", "
                   ++ user_text "u3" "c@x.com" ++ "]")
         ++ "}")%string
    (Some (JObj [("value", JArr [u1; JStr "oops"; u3])])).

Definition bad_record_run : scenario :=
  mkScenario (Reply (token_body "T1"))
    (fun u => if String.eqb u users_endpoint then Reply page_bad_record else NoReply)
    follow_u1_only.

(** ** The script *)

Section Script.

(** The configuration constants at the top of the script, edited by
    whoever runs it. *)
Variable TENANT_ID : string.
Variable CLIENT_ID : string.
Variable CLIENT_SECRET : string.
Variable SPECIFIC_SITE_ID : string.

(** The remote side: what [requests] gives back for a request, knowing
    the requests issued before it. *)
Variable server : list Request -> Request -> reply.

Definition GRAPH_BASE_URL : string := "https://graph.microsoft.com/beta".

Definition http (rq : Request) : M Response :=
  fun tr =>
    match server (requests_of tr) rq with
    | Reply r => (Returned r, tr ++ [EvHttp rq])
    | NoReply => (Raised RequestException, tr ++ [EvHttp rq])
    end.

Definition requests_post (u : fstr) (hdrs : option header_map) (d : payload)
  : M Response :=
  http (mkRequest POST u hdrs d).

(** [requests.get(url, headers=headers)]; requests renders [url] with
    [str()] before using it. *)
Definition requests_get (u : pyval) (hdrs : header_map) : M Response :=
  http (mkRequest GET [Fmt u] (Some hdrs) NoData).

Definition token_url : fstr :=
  [Lit ("https://login.microsoftonline.com/" ++ TENANT_ID ++ "/oauth2/v2.0/token")%string].

Definition token_data : list (string * string) :=
  [ ("client_id", CLIENT_ID);
    ("client_secret", CLIENT_SECRET);
    ("scope", "https://graph.microsoft.com/.default");
    ("grant_type", "client_credentials") ].

Definition get_access_token : M pyval :=
  resp <- requests_post token_url None (FormData token_data) ;;
  raise_for_status resp ;;;
  body <- resp_json resp ;;
  lift (subscript body "access_token").

(** The [while url:] loop of [paginated_get]; [fuel] bounds the number
    of iterations. *)
Fixpoint paginated_get_loop (fuel : nat) (u : pyval) (hdrs : header_map)
    (results : list pyval) : M (list pyval) :=
  if truthy u then
    match fuel with
    | O => fun tr => (Diverged, tr)
    | S fuel' =>
        resp <- requests_get u hdrs ;;
        raise_for_status resp ;;;
        data <- resp_json resp ;;
        value <- lift (py_get data "value" (JArr [])) ;;
        items <- lift (py_iter value) ;;
        next <- lift (py_get data "@odata.nextLink" JNull) ;;
        paginated_get_loop fuel' next hdrs (results ++ items)
    end
  else ret results.

Definition paginated_get (fuel : nat) (u : pyval) (hdrs : header_map)
  : M (list pyval) :=
  paginated_get_loop fuel u hdrs [].

Definition follow_url (user_id : pyval) : fstr :=
  [Lit GRAPH_BASE_URL; Lit "/users/"; Fmt user_id; Lit "/followedSites/add"].

Definition follow_body (site_id : string) : pyval :=
  JObj [("value", JArr [JObj [("id", JStr site_id)]])].

Definition follow_request (user_id : pyval) (site_id : string)
    (hdrs : header_map) : Request :=
  mkRequest POST (follow_url user_id) (Some hdrs) (JsonDumps (follow_body site_id)).

Definition success_line (user_id : pyval) (site_id : string) : fstr :=
  [Lit "    ✅ User "; Fmt user_id; Lit " now follows site "; Lit site_id].

Definition failure_line (user_id : pyval) (body_text : string) : fstr :=
  [Lit "    ❌ Failed for "; Fmt user_id; Lit ": "; Lit body_text].

Definition follow_site (user_id : pyval) (site_id : string) (hdrs : header_map)
  : M unit :=
  follow_resp <- requests_post (follow_url user_id) (Some hdrs)
                   (JsonDumps (follow_body site_id)) ;;
  if (status_code follow_resp =? 200) || (status_code follow_resp =? 204)
  then print (success_line user_id site_id)
  else print (failure_line user_id (text follow_resp)).

Definition make_headers (access_token : pyval) : header_map :=
  [ ("Authorization", [Lit "Bearer "; Fmt access_token]);
    ("Content-Type", [Lit "application/json"]) ].

Definition users_url : pyval := JStr (GRAPH_BASE_URL ++ "/users")%string.

Definition found_line (users : list pyval) : fstr :=
  [Lit "Found "; Fmt (JInt (Z.of_nat (List.length users))); Lit " users"].

Definition processing_line (user_name : pyval) : fstr :=
  [Lit (newline ++ "Processing user: ")%string; Fmt user_name].

(** The body of [for user in users:]. *)
Definition process_user (hdrs : header_map) (user : pyval) : M unit :=
  user_id <- lift (subscript user "id") ;;
  user_name <- lift (py_get user "userPrincipalName" user_id) ;;
  print (processing_line user_name) ;;;
  follow_site user_id SPECIFIC_SITE_ID hdrs.

Fixpoint for_each_user (hdrs : header_map) (users : list pyval) : M unit :=
  match users with
  | [] => ret tt
  | user :: rest => process_user hdrs user ;;; for_each_user hdrs rest
  end.

Definition main (fuel : nat) : M unit :=
  access_token <- get_access_token ;;
  let hdrs := make_headers access_token in
  users <- paginated_get fuel users_url hdrs ;;
  print (found_line users) ;;;
  for_each_user hdrs users.

(** ** Vocabulary for the statements *)

Definition token_request : Request :=
  mkRequest POST token_url None (FormData token_data).

Definition get_request (u : string) (hdrs : header_map) : Request :=
  mkRequest GET [Fmt (JStr u)] (Some hdrs) NoData.

(** The token endpoint answers the token call, at history [h], with a
    status that [raise_for_status] lets through and a body holding
    [tok] under [access_token]. *)
Definition token_granted (h : list Request) (tok : pyval) : Prop :=
  exists r fields,
    server h token_request = Reply r
    /\ ~ (400 <= status_code r < 600)
    /\ json r = Some (JObj fields)
    /\ dict_get fields "access_token" = Some tok.

(** [r] is a listing page: a status that is let through and a JSON
    object whose [value] is the array [items] and whose next-page link
    is [next] (absent for [None]). *)
Definition is_page (r : Response) (items : list pyval) (next : option string)
  : Prop :=
  ~ (400 <= status_code r < 600)
  /\ exists fields,
       json r = Some (JObj fields)
       /\ dict_get fields "value" = Some (JArr items)
       /\ dict_get fields "@odata.nextLink" = option_map JStr next.

Definition link_after (rest : list (string * list pyval)) (stop : option string)
  : option string :=
  match rest with
  | [] => stop
  | (u, _) :: _ => Some u
  end.

(** Starting at history [h], the listing endpoint serves [pages], each
    given as its URL and its items: a GET on a page's URL is answered by
    that page, linking to the URL of the page after it; the last page
    links to [stop]. *)
Fixpoint serves_until (hdrs : header_map) (h : list Request)
    (pages : list (string * list pyval)) (stop : option string) : Prop :=
  match pages with
  | [] => True
  | (u, items) :: rest =>
      u <> ""
      /\ (exists r, server h (get_request u hdrs) = Reply r
                    /\ is_page r items (link_after rest stop))
      /\ serves_until hdrs (h ++ [get_request u hdrs]) rest stop
  end.

(** A complete listing: the last page carries no link. *)
Definition serves (hdrs : header_map) (h : list Request)
    (pages : list (string * list pyval)) : Prop :=
  pages <> [] /\ serves_until hdrs h pages None.

Definition page_urls (pages : list (string * list pyval)) : list string :=
  map fst pages.

Definition page_items (pages : list (string * list pyval)) : list pyval :=
  List.concat (map snd pages).

Definition listing_calls (hdrs : header_map) (urls : list string) : list Request :=
  map (fun u => get_request u hdrs) urls.

Definition follow_calls (hdrs : header_map) (ids : list pyval) : list Request :=
  map (fun i => follow_request i SPECIFIC_SITE_ID hdrs) ids.

(** The follow endpoint answers every call, with whatever status. *)
Definition follow_answers (hdrs : header_map) : Prop :=
  forall (h : list Request) (i : pyval),
    server h (follow_request i SPECIFIC_SITE_ID hdrs) <> NoReply.

(** [ids] are the [id] fields of [users], record by record. *)
Definition ids_of (users ids : list pyval) : Prop :=
  Forall2 (fun user i => subscript user "id" = inr i) users ids.

(** The value [data.get("@odata.nextLink")] yields for a link. *)
Definition link_value (next : option string) : pyval :=
  match next with
  | Some u => JStr u
  | None => JNull
  end.

Definition first_url (pages : list (string * list pyval)) : string :=
  hd "" (page_urls pages).

(** Every request among [evs] carries the header mapping [hdrs]. *)
Definition all_carry (hdrs : header_map) (evs : trace) : Prop :=
  Forall (fun rq => headers rq = Some hdrs) (requests_of evs).

(** Whatever its outcome, [m] only appends events, and the requests it
    appends carry [hdrs]. *)
Definition carries {A : Type} (hdrs : header_map) (m : M A) : Prop :=
  forall tr : trace,
  exists evs : trace, snd (m tr) = tr ++ evs /\ all_carry hdrs evs.

(** [requests.get] on any value of [url], string or not. *)
Definition get_call (u : pyval) (hdrs : header_map) : Request :=
  mkRequest GET [Fmt u] (Some hdrs) NoData.

(** The values [list.extend] refuses: null, booleans and numbers. *)
Definition not_iterable (v : pyval) : Prop :=
  match v with
  | JNull | JBool _ | JInt _ | JFloat _ => True
  | _ => False
  end.

(** The listing endpoint answers every GET with a page that links to a
    further, non-empty URL. *)
Definition always_links (hdrs : header_map) : Prop :=
  forall (h : list Request) (u : string),
  exists (r : Response) (items : list pyval) (next : string),
    server h (get_request u hdrs) = Reply r
    /\ is_page r items (Some next)
    /\ next <> "".

(** Whatever its outcome, [m] only appends events, and what it appends
    satisfies [P]. *)
Definition emits {A : Type} (P : trace -> Prop) (m : M A) : Prop :=
  forall tr : trace, exists evs : trace, snd (m tr) = tr ++ evs /\ P evs.

(** Nothing but GET calls with the headers [hdrs]. *)
Definition only_gets (hdrs : header_map) (evs : trace) : Prop :=
  exists urls : list pyval,
    evs = map EvHttp (map (fun u => get_call u hdrs) urls).

(** No call but follow calls with the headers [hdrs]. *)
Definition only_follows (hdrs : header_map) (evs : trace) : Prop :=
  exists ids : list pyval, requests_of evs = follow_calls hdrs ids.

(** The three events of one turn of the loop over the users. *)
Definition user_events (hdrs : header_map) (row : pyval * pyval * fstr) : trace :=
  let '(name, i, line) := row in
  [ EvPrint (processing_line name);
    EvHttp (follow_request i SPECIFIC_SITE_ID hdrs);
    EvPrint line ].

(** [row] holds what the loop reads from [user]: the name it shows, the
    [id] it follows with, and a line that is one of the two reports. *)
Definition row_of (user : pyval) (row : pyval * pyval * fstr) : Prop :=
  let '(name, i, line) := row in
  subscript user "id" = inr i
  /\ py_get user "userPrincipalName" i = inr name
  /\ (line = success_line i SPECIFIC_SITE_ID
      \/ exists body : string, line = failure_line i body).

(** ** Properties *)

(** C2: whatever response the follow call gets (the POST to
    [/users/<id>/followedSites/add] with the site in its JSON body),
    [follow_site] returns normally after exactly that call and one
    printed line.  The line is the success report, naming the user and
    the site, exactly when the status is 200 or 204; for every other
    status it is the failure report, naming the user and ending with the
    response body, whatever that body is. *)
Theorem follow_site_outcome :
  forall (user_id : pyval) (site_id : string) (hdrs : header_map)
         (tr : trace) (r : Response),
    server (requests_of tr)
           (mkRequest POST
               [ Lit "https://graph.microsoft.com/beta"; Lit "/users/";
                 Fmt user_id; Lit "/followedSites/add" ]
               (Some hdrs)
               (JsonDumps (JObj [("value", JArr [JObj [("id", JStr site_id)]])]))) = Reply r ->
    exists line : fstr,
      follow_site user_id site_id hdrs tr
        = (Returned tt,
           tr ++ [EvHttp
                    (mkRequest POST
                        [ Lit "https://graph.microsoft.com/beta"; Lit "/users/";
                          Fmt user_id; Lit "/followedSites/add" ]
                        (Some hdrs)
                        (JsonDumps (JObj [("value", JArr [JObj [("id", JStr site_id)]])])))]
              ++ [EvPrint line])
      /\ (line = [ Lit "    ✅ User "; Fmt user_id;
                   Lit " now follows site "; Lit site_id ]
           <-> status_code r = 200 \/ status_code r = 204)
      /\ (line = [ Lit "    ❌ Failed for "; Fmt user_id; Lit ": "; Lit (text r) ]
           <-> ~ (status_code r = 200 \/ status_code r = 204)).
Proof.
  intros user_id site_id hdrs tr r Hreply.
  change (server (requests_of tr) (follow_request user_id site_id hdrs) = Reply r)
    in Hreply.
  unfold follow_site, requests_post, http, bind.
  fold (follow_request user_id site_id hdrs). rewrite Hreply.
  destruct ((status_code r =? 200) || (status_code r =? 204)) eqn:Hst.
  - exists (success_line user_id site_id). unfold print.
    rewrite <- app_assoc. split; [reflexivity|].
    apply orb_true_iff in Hst. rewrite !Z.eqb_eq in Hst.
    split; split; intro H; try tauto; try reflexivity.
    discriminate H.
  - exists (failure_line user_id (text r)). unfold print.
    rewrite <- app_assoc. split; [reflexivity|].
    apply orb_false_iff in Hst. rewrite !Z.eqb_neq in Hst.
    split; split; intro H; try tauto; try reflexivity.
    discriminate H.
Qed.

(** *** Bookkeeping *)

Lemma requests_of_app :
  forall a b : trace, requests_of (a ++ b) = requests_of a ++ requests_of b.
Proof.
  induction a as [|[rq|l] a IH]; intro b; simpl; rewrite ?IH; reflexivity.
Qed.

Lemma requests_of_http :
  forall l : list Request, requests_of (map EvHttp l) = l.
Proof.
  induction l as [|rq l IH]; simpl; rewrite ?IH; reflexivity.
Qed.

Lemma status_passes :
  forall st : Z, ~ (400 <= st < 600) -> (400 <=? st) && (st <? 600) = false.
Proof.
  intros st H. apply andb_false_iff.
  rewrite Z.leb_gt, Z.ltb_ge. lia.
Qed.

Lemma status_refused :
  forall st : Z, 400 <= st < 600 -> (400 <=? st) && (st <? 600) = true.
Proof.
  intros st H. apply andb_true_iff.
  rewrite Z.leb_le, Z.ltb_lt. lia.
Qed.

Lemma nonempty_truthy :
  forall u : string, u <> "" -> truthy (JStr u) = true.
Proof.
  intros u H. simpl. apply negb_true_iff. now apply String.eqb_neq.
Qed.

(** *** The token call *)

Lemma get_access_token_refused :
  forall (tr : trace) (r : Response),
    server (requests_of tr) token_request = Reply r ->
    400 <= status_code r < 600 ->
    get_access_token tr
      = (Raised (HTTPError (status_code r)), tr ++ [EvHttp token_request]).
Proof.
  intros tr r Hreply Hst.
  unfold get_access_token, requests_post, http, bind.
  fold token_request. rewrite Hreply.
  unfold raise_for_status. rewrite (status_refused _ Hst). reflexivity.
Qed.

Lemma get_access_token_body :
  forall (tr : trace) (r : Response) (body : pyval),
    server (requests_of tr) token_request = Reply r ->
    ~ (400 <= status_code r < 600) ->
    json r = Some body ->
    get_access_token tr
      = lift (subscript body "access_token") (tr ++ [EvHttp token_request]).
Proof.
  intros tr r body Hreply Hst Hjson.
  unfold get_access_token, requests_post, http, bind.
  fold token_request. rewrite Hreply.
  unfold raise_for_status. rewrite (status_passes _ Hst).
  unfold ret, resp_json. rewrite Hjson. reflexivity.
Qed.

Lemma get_access_token_granted :
  forall (tr : trace) (tok : pyval),
    token_granted (requests_of tr) tok ->
    get_access_token tr = (Returned tok, tr ++ [EvHttp token_request]).
Proof.
  intros tr tok (r & fields & Hreply & Hst & Hjson & Hfield).
  rewrite (get_access_token_body tr r (JObj fields) Hreply Hst Hjson).
  simpl. rewrite Hfield. reflexivity.
Qed.

(** C6, as the script has it: when the token endpoint answers, a 4xx or
    5xx status makes [get_access_token] raise the HTTP error; any other
    status with a JSON object holding [access_token] makes it return
    that field's value exactly as received (so a non-empty string
    whenever the endpoint sent one); and any other status with a JSON
    object lacking the field makes it raise a key error. *)
Theorem get_access_token_cases :
  forall (tr : trace) (r : Response),
    server (requests_of tr) token_request = Reply r ->
    (400 <= status_code r < 600 ->
       get_access_token tr
         = (Raised (HTTPError (status_code r)), tr ++ [EvHttp token_request]))
    /\ (forall (fields : list (string * pyval)) (tok : pyval),
          ~ (400 <= status_code r < 600) ->
          json r = Some (JObj fields) ->
          dict_get fields "access_token" = Some tok ->
          get_access_token tr = (Returned tok, tr ++ [EvHttp token_request]))
    /\ (forall fields : list (string * pyval),
          ~ (400 <= status_code r < 600) ->
          json r = Some (JObj fields) ->
          dict_get fields "access_token" = None ->
          get_access_token tr
            = (Raised (KeyError "access_token"), tr ++ [EvHttp token_request])).
Proof.
  intros tr r Hreply. split; [|split].
  - intro Hst. now apply get_access_token_refused.
  - intros fields tok Hst Hjson Hfield.
    apply get_access_token_granted. now exists r, fields.
  - intros fields Hst Hjson Hfield.
    rewrite (get_access_token_body tr r (JObj fields) Hreply Hst Hjson).
    simpl. rewrite Hfield. reflexivity.
Qed.

(** *** The listing loop *)

Lemma loop_step :
  forall (fuel : nat) (u : string) (hdrs : header_map) (res : list pyval)
         (tr : trace) (r : Response) (items : list pyval) (next : option string),
    u <> "" ->
    server (requests_of tr) (get_request u hdrs) = Reply r ->
    is_page r items next ->
    paginated_get_loop (S fuel) (JStr u) hdrs res tr
      = paginated_get_loop fuel (link_value next) hdrs (res ++ items)
          (tr ++ [EvHttp (get_request u hdrs)]).
Proof.
  intros fuel u hdrs res tr r items next Hu Hreply
         (Hst & fields & Hjson & Hvalue & Hnext).
  cbn [paginated_get_loop]. rewrite (nonempty_truthy u Hu).
  unfold bind at 1. unfold requests_get, http.
  fold (get_request u hdrs). rewrite Hreply.
  unfold bind at 1. unfold raise_for_status.
  rewrite (status_passes _ Hst). unfold ret at 1.
  unfold bind at 1. unfold resp_json. rewrite Hjson. unfold ret at 1.
  unfold bind at 1. unfold py_get at 1. rewrite Hvalue.
  unfold lift at 1, ret at 1.
  unfold bind at 1. unfold py_iter, lift at 1, ret at 1.
  unfold bind at 1. unfold py_get. rewrite Hnext.
  destruct next as [u'|]; reflexivity.
Qed.

Lemma loop_done :
  forall (fuel : nat) (hdrs : header_map) (res : list pyval) (tr : trace),
    paginated_get_loop fuel JNull hdrs res tr = (Returned res, tr).
Proof.
  intros [|fuel] hdrs res tr; reflexivity.
Qed.

Lemma loop_pages :
  forall (pages : list (string * list pyval)) (stop : option string)
         (hdrs : header_map) (tr : trace) (res : list pyval) (fuel : nat),
    pages <> [] ->
    serves_until hdrs (requests_of tr) pages stop ->
    paginated_get_loop (List.length pages + fuel) (JStr (first_url pages)) hdrs res tr
      = paginated_get_loop fuel (link_value stop) hdrs (res ++ page_items pages)
          (tr ++ map EvHttp (listing_calls hdrs (page_urls pages))).
Proof.
  induction pages as [|[u items] rest IH]; intros stop hdrs tr res fuel Hne Hserves.
  - contradiction.
  - destruct Hserves as (Hu & (r & Hreply & Hpage) & Hrest).
    cbn [List.length Nat.add first_url page_urls map fst hd].
    rewrite (loop_step _ u hdrs res tr r items _ Hu Hreply Hpage).
    destruct rest as [|[u' items'] rest'].
    + unfold page_items. simpl. rewrite app_nil_r. reflexivity.
    + rewrite <- requests_of_http with (l := [get_request u hdrs]) in Hrest.
      rewrite <- requests_of_app in Hrest. simpl map in Hrest.
      change (link_value (link_after ((u', items') :: rest') stop))
        with (JStr (first_url ((u', items') :: rest'))).
      rewrite (IH stop hdrs _ (res ++ items) fuel); [|discriminate|exact Hrest].
      unfold page_items, listing_calls, page_urls.
      cbn [map List.concat fst snd].
      rewrite <- !app_assoc. reflexivity.
Qed.

(** A complete listing is fetched with one GET per page. *)
Lemma paginated_get_pages :
  forall (hdrs : header_map) (tr : trace) (pages : list (string * list pyval))
         (fuel : nat),
    serves hdrs (requests_of tr) pages ->
    (List.length pages <= fuel)%nat ->
    paginated_get fuel (JStr (first_url pages)) hdrs tr
      = (Returned (page_items pages),
         tr ++ map EvHttp (listing_calls hdrs (page_urls pages))).
Proof.
  intros hdrs tr pages fuel [Hne Hserves] Hfuel.
  unfold paginated_get.
  replace fuel with (List.length pages + (fuel - List.length pages))%nat by lia.
  rewrite (loop_pages pages None hdrs tr [] _ Hne Hserves).
  apply loop_done.
Qed.

(** C1: when the listing endpoint serves N >= 1 pages, every page but
    the last linking to the next one, [paginated_get] (run with room for
    N iterations) returns the items of all pages, concatenated in page
    order; their number is the sum of the page sizes. *)
Theorem paginated_get_concatenates :
  forall (hdrs : header_map) (tr : trace) (pages : list (string * list pyval))
         (fuel : nat),
    serves hdrs (requests_of tr) pages ->
    (List.length pages <= fuel)%nat ->
    exists tr' : trace,
      paginated_get fuel (JStr (first_url pages)) hdrs tr
        = (Returned (List.concat (map snd pages)), tr')
      /\ List.length (List.concat (map snd pages))
         = list_sum (map (fun p => List.length (snd p)) pages).
Proof.
  intros hdrs tr pages fuel Hserves Hfuel.
  exists (tr ++ map EvHttp (listing_calls hdrs (page_urls pages))). split.
  - now apply paginated_get_pages.
  - rewrite length_concat, map_map. reflexivity.
Qed.

(** *** The loop over the users *)

Lemma requests_of_print :
  forall (tr : trace) (line : fstr),
    requests_of (tr ++ [EvPrint line]) = requests_of tr.
Proof.
  intros tr line. rewrite requests_of_app. simpl. apply app_nil_r.
Qed.

Lemma follow_site_run :
  forall (user_id : pyval) (site_id : string) (hdrs : header_map)
         (tr : trace) (r : Response),
    server (requests_of tr) (follow_request user_id site_id hdrs) = Reply r ->
    follow_site user_id site_id hdrs tr
      = (Returned tt,
         tr ++ [EvHttp (follow_request user_id site_id hdrs);
                EvPrint (if (status_code r =? 200) || (status_code r =? 204)
                         then success_line user_id site_id
                         else failure_line user_id (text r))]).
Proof.
  intros user_id site_id hdrs tr r Hreply.
  unfold follow_site, requests_post, http, bind.
  fold (follow_request user_id site_id hdrs). rewrite Hreply.
  destruct ((status_code r =? 200) || (status_code r =? 204));
    unfold print; rewrite <- app_assoc; reflexivity.
Qed.

(** One turn of the loop on a record that has an [id]. *)
Lemma process_user_run :
  forall (hdrs : header_map) (fields : list (string * pyval)) (user_id : pyval)
         (tr : trace) (r : Response),
    dict_get fields "id" = Some user_id ->
    server (requests_of tr) (follow_request user_id SPECIFIC_SITE_ID hdrs) = Reply r ->
    process_user hdrs (JObj fields) tr
      = (Returned tt,
         tr ++ [EvPrint (processing_line
                           match dict_get fields "userPrincipalName" with
                           | Some name => name
                           | None => user_id
                           end);
                EvHttp (follow_request user_id SPECIFIC_SITE_ID hdrs);
                EvPrint (if (status_code r =? 200) || (status_code r =? 204)
                         then success_line user_id SPECIFIC_SITE_ID
                         else failure_line user_id (text r))]).
Proof.
  intros hdrs fields user_id tr r Hid Hreply.
  unfold process_user, bind, lift, subscript, py_get. rewrite Hid.
  unfold ret at 1.
  destruct (dict_get fields "userPrincipalName") as [name|];
    unfold ret, print;
    (rewrite (follow_site_run user_id SPECIFIC_SITE_ID hdrs _ r);
     [rewrite <- app_assoc; reflexivity
     |rewrite requests_of_print; exact Hreply]).
Qed.

Lemma subscript_dict :
  forall (user : pyval) (key : string) (x : pyval),
    subscript user key = inr x ->
    exists fields, user = JObj fields /\ dict_get fields key = Some x.
Proof.
  intros user key x H. destruct user; try discriminate.
  exists fields. split; [reflexivity|].
  simpl in H. destruct (dict_get fields key); congruence.
Qed.

Lemma follow_reply :
  forall (hdrs : header_map) (h : list Request) (i : pyval),
    follow_answers hdrs ->
    exists r, server h (follow_request i SPECIFIC_SITE_ID hdrs) = Reply r.
Proof.
  intros hdrs h i Hans. specialize (Hans h i).
  destruct (server h (follow_request i SPECIFIC_SITE_ID hdrs)) as [r|].
  - now exists r.
  - contradiction.
Qed.

(** When every record has an [id] and every follow call is answered, the
    loop runs to its end: one follow call per user, in order, and a
    failure line for every refused call. *)
Lemma for_each_user_run :
  forall (hdrs : header_map) (users ids : list pyval),
    ids_of users ids ->
    follow_answers hdrs ->
    forall tr : trace,
    exists evs : trace,
      for_each_user hdrs users tr = (Returned tt, tr ++ evs)
      /\ requests_of evs = follow_calls hdrs ids
      /\ forall (k : nat) (i : pyval) (r : Response),
           nth_error ids k = Some i ->
           server (requests_of tr ++ follow_calls hdrs (firstn k ids))
                  (follow_request i SPECIFIC_SITE_ID hdrs) = Reply r ->
           ~ (status_code r = 200 \/ status_code r = 204) ->
           In (EvPrint (failure_line i (text r))) evs.
Proof.
  intros hdrs users ids Hids Hans.
  induction Hids as [|user i users ids Hid Hrest IH]; intro tr.
  - exists []. rewrite app_nil_r. repeat split.
    intros [|k] i r Hnth; discriminate Hnth.
  - destruct (subscript_dict _ _ _ Hid) as (fields & -> & Hfield).
    destruct (follow_reply hdrs (requests_of tr) i Hans) as [r Hreply].
    cbn [for_each_user]. unfold bind.
    rewrite (process_user_run hdrs fields i tr r Hfield Hreply).
    match goal with |- context [for_each_user hdrs users ?t] =>
      destruct (IH t) as (evs & Hrun & Hreqs & Hfail) end.
    rewrite Hrun. eexists. split; [rewrite <- app_assoc; reflexivity|]. split.
    + simpl. rewrite Hreqs. reflexivity.
    + intros [|k] j r' Hnth Hreply' Hst.
      * simpl in Hnth. injection Hnth as <-.
        simpl in Hreply'. rewrite app_nil_r in Hreply'.
        rewrite Hreply in Hreply'. injection Hreply' as <-.
        right. right. left.
        replace ((status_code r =? 200) || (status_code r =? 204)) with false;
          [reflexivity|].
        symmetry. apply orb_false_iff. rewrite !Z.eqb_neq. tauto.
      * simpl in Hnth. right. right. right.
        apply (Hfail k j r' Hnth); [|exact Hst].
        rewrite requests_of_app. simpl requests_of.
        rewrite <- app_assoc. exact Hreply'.
Qed.

(** A record without [id] stops the loop where it stands. *)
Lemma for_each_user_missing_id :
  forall (hdrs : header_map) (pre ids : list pyval)
         (fields : list (string * pyval)) (post : list pyval),
    ids_of pre ids ->
    follow_answers hdrs ->
    dict_get fields "id" = None ->
    forall tr : trace,
    exists evs : trace,
      for_each_user hdrs (pre ++ JObj fields :: post) tr
        = (Raised (KeyError "id"), tr ++ evs)
      /\ requests_of evs = follow_calls hdrs ids.
Proof.
  intros hdrs pre ids fields post Hids Hans Hnone.
  induction Hids as [|user i pre ids Hid Hrest IH]; intro tr.
  - exists []. rewrite app_nil_r. split; [|reflexivity].
    cbn [app for_each_user]. unfold bind, process_user, bind, lift, subscript.
    rewrite Hnone. reflexivity.
  - destruct (subscript_dict _ _ _ Hid) as (ufields & -> & Hfield).
    destruct (follow_reply hdrs (requests_of tr) i Hans) as [r Hreply].
    cbn [app for_each_user]. unfold bind at 1.
    rewrite (process_user_run hdrs ufields i tr r Hfield Hreply).
    match goal with |- context [for_each_user hdrs _ ?t] =>
      destruct (IH t) as (evs & Hrun & Hreqs) end.
    rewrite Hrun. eexists. split; [rewrite <- app_assoc; reflexivity|].
    simpl. rewrite Hreqs. reflexivity.
Qed.

(** *** The run *)

Lemma main_after_token :
  forall (fuel : nat) (tr : trace) (tok : pyval),
    token_granted (requests_of tr) tok ->
    main fuel tr
      = (users <- paginated_get fuel users_url (make_headers tok) ;;
         print (found_line users) ;;;
         for_each_user (make_headers tok) users)
          (tr ++ [EvHttp token_request]).
Proof.
  intros fuel tr tok Htok. unfold main. unfold bind at 1.
  rewrite (get_access_token_granted tr tok Htok). reflexivity.
Qed.

Lemma main_after_fetch :
  forall (fuel : nat) (tr tr2 : trace) (tok : pyval) (users : list pyval),
    token_granted (requests_of tr) tok ->
    paginated_get fuel users_url (make_headers tok) (tr ++ [EvHttp token_request])
      = (Returned users, tr2) ->
    main fuel tr
      = for_each_user (make_headers tok) users (tr2 ++ [EvPrint (found_line users)]).
Proof.
  intros fuel tr tr2 tok users Htok Hfetch.
  rewrite (main_after_token fuel tr tok Htok).
  unfold bind at 1. rewrite Hfetch. reflexivity.
Qed.

Lemma main_fetch_raises :
  forall (fuel : nat) (tr tr2 : trace) (tok : pyval) (e : exn),
    token_granted (requests_of tr) tok ->
    paginated_get fuel users_url (make_headers tok) (tr ++ [EvHttp token_request])
      = (Raised e, tr2) ->
    main fuel tr = (Raised e, tr2).
Proof.
  intros fuel tr tr2 tok e Htok Hfetch.
  rewrite (main_after_token fuel tr tok Htok).
  unfold bind at 1. rewrite Hfetch. reflexivity.
Qed.

(** C5: once the users are fetched (each record with an [id], every
    follow call answered), the run returns normally whatever the
    statuses of the follow calls are.  After the fetch it issues exactly
    one follow call per user, in the order of the list: for each user
    the POST to [/users/<id>/followedSites/add] with the site in its
    JSON body, also for the users that come after a refused call.  For
    every user whose call is answered with a status other than 200 and
    204 it prints the failure report of that user, which names the
    user's id and ends with the response body. *)
Theorem follow_failure_does_not_stop :
  forall (fuel : nat) (tr tr2 : trace) (tok : pyval) (users ids : list pyval),
    token_granted (requests_of tr) tok ->
    paginated_get fuel users_url (make_headers tok) (tr ++ [EvHttp token_request])
      = (Returned users, tr2) ->
    ids_of users ids ->
    follow_answers (make_headers tok) ->
    exists evs : trace,
      main fuel tr = (Returned tt, tr2 ++ evs)
      /\ requests_of evs
         = map (fun i =>
                 mkRequest POST
                   [ Lit "https://graph.microsoft.com/beta"; Lit "/users/";
                     Fmt i; Lit "/followedSites/add" ]
                   (Some (make_headers tok))
                   (JsonDumps
                      (JObj [("value", JArr [JObj [("id", JStr SPECIFIC_SITE_ID)]])])))
             ids
      /\ forall (k : nat) (i : pyval) (r : Response),
           nth_error ids k = Some i ->
           server
             (requests_of tr2
                ++ map (fun i =>
                         mkRequest POST
                           [ Lit "https://graph.microsoft.com/beta"; Lit "/users/";
                             Fmt i; Lit "/followedSites/add" ]
                           (Some (make_headers tok))
                           (JsonDumps
                              (JObj [("value", JArr [JObj [("id", JStr SPECIFIC_SITE_ID)]])])))
                     (firstn k ids))
             (mkRequest POST
                [ Lit "https://graph.microsoft.com/beta"; Lit "/users/";
                  Fmt i; Lit "/followedSites/add" ]
                (Some (make_headers tok))
                (JsonDumps (JObj [("value", JArr [JObj [("id", JStr SPECIFIC_SITE_ID)]])]))) = Reply r ->
           ~ (status_code r = 200 \/ status_code r = 204) ->
           In (EvPrint [ Lit "    ❌ Failed for "; Fmt i; Lit ": "; Lit (text r) ])
              evs.
Proof.
  intros fuel tr tr2 tok users ids Htok Hfetch Hids Hans.
  rewrite (main_after_fetch fuel tr tr2 tok users Htok Hfetch).
  destruct (for_each_user_run (make_headers tok) users ids Hids Hans
              (tr2 ++ [EvPrint (found_line users)])) as (evs & Hrun & Hreqs & Hfail).
  exists (EvPrint (found_line users) :: evs). split; [|split].
  - rewrite Hrun, <- app_assoc. reflexivity.
  - exact Hreqs.
  - intros k i r Hnth Hreply Hst. right.
    apply (Hfail k i r Hnth); [|exact Hst].
    rewrite requests_of_print. exact Hreply.
Qed.


(** C10: when the fetched list holds a record without [id] (whatever
    else it holds, [userPrincipalName] included), the run raises the key
    error at that record: the users before it get their follow call, the
    record itself and all users after it get none.  A record that has an
    [id] is processed without error, and when it has no
    [userPrincipalName] the progress line shows the [id]. *)
Theorem missing_id_aborts_run :
  forall (fuel : nat) (tr tr2 : trace) (tok : pyval) (pre ids : list pyval)
         (fields : list (string * pyval)) (post : list pyval),
    token_granted (requests_of tr) tok ->
    paginated_get fuel users_url (make_headers tok) (tr ++ [EvHttp token_request])
      = (Returned (pre ++ JObj fields :: post), tr2) ->
    ids_of pre ids ->
    follow_answers (make_headers tok) ->
    dict_get fields "id" = None ->
    (exists evs : trace,
       main fuel tr = (Raised (KeyError "id"), tr2 ++ evs)
       /\ requests_of evs = follow_calls (make_headers tok) ids)
    /\ forall (ufields : list (string * pyval)) (user_id : pyval) (tr' : trace),
         dict_get ufields "id" = Some user_id ->
         exists (name : pyval) (line : fstr),
           process_user (make_headers tok) (JObj ufields) tr'
             = (Returned tt,
                tr' ++ [EvPrint (processing_line name);
                        EvHttp (follow_request user_id SPECIFIC_SITE_ID
                                  (make_headers tok));
                        EvPrint line])
           /\ (dict_get ufields "userPrincipalName" = None -> name = user_id).
Proof.
  intros fuel tr tr2 tok pre ids fields post Htok Hfetch Hids Hans Hnone. split.
  - rewrite (main_after_fetch fuel tr tr2 tok _ Htok Hfetch).
    match goal with |- context [for_each_user _ _ ?t] =>
      destruct (for_each_user_missing_id (make_headers tok) pre ids fields post
                  Hids Hans Hnone t) as (evs & Hrun & Hreqs) end.
    exists (EvPrint (found_line (pre ++ JObj fields :: post)) :: evs). split.
    + rewrite Hrun, <- app_assoc. reflexivity.
    + exact Hreqs.
  - intros ufields user_id tr' Hid.
    destruct (follow_reply (make_headers tok) (requests_of tr') user_id Hans)
      as [r Hreply].
    rewrite (process_user_run _ ufields user_id tr' r Hid Hreply).
    do 2 eexists. split; [reflexivity|].
    intros ->. reflexivity.
Qed.

(** C3, as the script has it: when the token endpoint answers with a
    4xx or 5xx status, the run raises the HTTP error right after the
    token call; the trace holds that call and nothing more, so no
    listing call and no follow call is issued. *)
Theorem token_refusal_aborts_run :
  forall (fuel : nat) (tr : trace) (r : Response),
    server (requests_of tr) token_request = Reply r ->
    400 <= status_code r < 600 ->
    main fuel tr
      = (Raised (HTTPError (status_code r)), tr ++ [EvHttp token_request]).
Proof.
  intros fuel tr r Hreply Hst. unfold main. unfold bind at 1.
  rewrite (get_access_token_refused tr r Hreply Hst). reflexivity.
Qed.

(** *** A listing call that goes wrong *)

Lemma fetch_after_pages :
  forall (fuel : nat) (hdrs : header_map) (tr : trace)
         (pages : list (string * list pyval)) (u : string),
    serves_until hdrs (requests_of tr) pages (Some u) ->
    (List.length pages < fuel)%nat ->
    paginated_get fuel (JStr (hd u (page_urls pages))) hdrs tr
      = paginated_get_loop (fuel - List.length pages) (JStr u) hdrs
          (page_items pages)
          (tr ++ map EvHttp (listing_calls hdrs (page_urls pages))).
Proof.
  intros fuel hdrs tr pages u Hserves Hfuel. unfold paginated_get.
  destruct pages as [|p rest].
  - simpl. rewrite app_nil_r, Nat.sub_0_r. reflexivity.
  - replace fuel
      with (List.length (p :: rest) + (fuel - List.length (p :: rest)))%nat at 1
      by lia.
    rewrite (loop_pages (p :: rest) (Some u) hdrs tr []); [|discriminate|exact Hserves].
    destruct p as [u0 items0]. reflexivity.
Qed.

Lemma loop_refused :
  forall (fuel : nat) (u : string) (hdrs : header_map) (res : list pyval)
         (tr : trace) (r : Response),
    u <> "" ->
    server (requests_of tr) (get_request u hdrs) = Reply r ->
    400 <= status_code r < 600 ->
    paginated_get_loop (S fuel) (JStr u) hdrs res tr
      = (Raised (HTTPError (status_code r)), tr ++ [EvHttp (get_request u hdrs)]).
Proof.
  intros fuel u hdrs res tr r Hu Hreply Hst.
  cbn [paginated_get_loop]. rewrite (nonempty_truthy u Hu).
  unfold bind at 1. unfold requests_get, http.
  fold (get_request u hdrs). rewrite Hreply.
  unfold bind at 1. unfold raise_for_status.
  rewrite (status_refused _ Hst). reflexivity.
Qed.

(** What one iteration does with a response whose status is let
    through: it depends on the decoded body only. *)
Lemma loop_body :
  forall (fuel : nat) (u : string) (hdrs : header_map) (res : list pyval)
         (tr : trace) (r : Response),
    u <> "" ->
    server (requests_of tr) (get_request u hdrs) = Reply r ->
    ~ (400 <= status_code r < 600) ->
    paginated_get_loop (S fuel) (JStr u) hdrs res tr
      = (data <- resp_json r ;;
         value <- lift (py_get data "value" (JArr [])) ;;
         items <- lift (py_iter value) ;;
         next <- lift (py_get data "@odata.nextLink" JNull) ;;
         paginated_get_loop fuel next hdrs (res ++ items))
          (tr ++ [EvHttp (get_request u hdrs)]).
Proof.
  intros fuel u hdrs res tr r Hu Hreply Hst.
  cbn [paginated_get_loop]. rewrite (nonempty_truthy u Hu).
  unfold bind at 1. unfold requests_get, http.
  fold (get_request u hdrs). rewrite Hreply.
  unfold bind at 1. unfold raise_for_status.
  rewrite (status_passes _ Hst). reflexivity.
Qed.

Lemma listing_trace :
  forall (tr : trace) (hdrs : header_map) (urls : list string) (u : string),
    (tr ++ map EvHttp (listing_calls hdrs urls)) ++ [EvHttp (get_request u hdrs)]
      = tr ++ map EvHttp (listing_calls hdrs (urls ++ [u])).
Proof.
  intros tr hdrs urls u. unfold listing_calls.
  rewrite !map_app, <- app_assoc. reflexivity.
Qed.

(** C4, as the script has it: when, after any number of pages served
    with a link to the next, a listing call is answered with a 4xx or
    5xx status, the fetch raises the HTTP error and so does the run; the
    trace ends with that listing call: the items of the earlier pages
    are not handed over, no user is processed and no follow call is
    issued. *)
Theorem listing_refusal_aborts_run :
  forall (fuel : nat) (tr : trace) (tok : pyval)
         (pages : list (string * list pyval)) (u : string) (r : Response),
    token_granted (requests_of tr) tok ->
    JStr (hd u (page_urls pages)) = users_url ->
    serves_until (make_headers tok) (requests_of tr ++ [token_request]) pages (Some u) ->
    u <> "" ->
    server (requests_of tr ++ [token_request]
              ++ listing_calls (make_headers tok) (page_urls pages))
           (get_request u (make_headers tok)) = Reply r ->
    400 <= status_code r < 600 ->
    (List.length pages < fuel)%nat ->
    paginated_get fuel users_url (make_headers tok) (tr ++ [EvHttp token_request])
      = (Raised (HTTPError (status_code r)),
         (tr ++ [EvHttp token_request])
            ++ map EvHttp (listing_calls (make_headers tok) (page_urls pages ++ [u])))
    /\ main fuel tr
       = (Raised (HTTPError (status_code r)),
          (tr ++ [EvHttp token_request])
            ++ map EvHttp (listing_calls (make_headers tok) (page_urls pages ++ [u]))).
Proof.
  intros fuel tr tok pages u r Htok Hurl Hserves Hu Hreply Hst Hfuel.
  assert (Hfetch :
    paginated_get fuel users_url (make_headers tok) (tr ++ [EvHttp token_request])
      = (Raised (HTTPError (status_code r)),
         (tr ++ [EvHttp token_request])
            ++ map EvHttp (listing_calls (make_headers tok) (page_urls pages ++ [u])))).
  { rewrite <- Hurl. rewrite fetch_after_pages; [| |exact Hfuel].
    - replace (fuel - List.length pages)%nat
        with (S (fuel - List.length pages - 1)) by lia.
      rewrite (loop_refused _ u _ _ _ r Hu); [|
        rewrite !requests_of_app, requests_of_http; simpl;
        rewrite <- app_assoc; exact Hreply | exact Hst].
      rewrite listing_trace. reflexivity.
    - rewrite requests_of_app. exact Hserves. }
  split; [exact Hfetch|].
  exact (main_fetch_raises fuel tr _ tok _ Htok Hfetch).
Qed.

(** C7, as the script has it: for a listing response whose status is
    let through, after any number of pages served, a body that is not
    JSON, or is JSON but not an object, raises an error that ends the
    fetch and the run at that call; a JSON object that merely lacks
    [value] raises nothing: it adds no item and the fetch goes on from
    the object's next-page link (or stops when there is none). *)
Theorem listing_body_shapes :
  forall (fuel : nat) (tr : trace) (tok : pyval)
         (pages : list (string * list pyval)) (u : string) (r : Response),
    token_granted (requests_of tr) tok ->
    JStr (hd u (page_urls pages)) = users_url ->
    serves_until (make_headers tok) (requests_of tr ++ [token_request]) pages (Some u) ->
    u <> "" ->
    server (requests_of tr ++ [token_request]
              ++ listing_calls (make_headers tok) (page_urls pages))
           (get_request u (make_headers tok)) = Reply r ->
    ~ (400 <= status_code r < 600) ->
    (List.length pages < fuel)%nat ->
    (json r = None ->
       main fuel tr
         = (Raised JSONDecodeError,
            (tr ++ [EvHttp token_request])
              ++ map EvHttp (listing_calls (make_headers tok) (page_urls pages ++ [u]))))
    /\ (forall v : pyval,
          json r = Some v ->
          (forall fields, v <> JObj fields) ->
          main fuel tr
            = (Raised AttributeError,
               (tr ++ [EvHttp token_request])
                 ++ map EvHttp (listing_calls (make_headers tok) (page_urls pages ++ [u]))))
    /\ (forall fields : list (string * pyval),
          json r = Some (JObj fields) ->
          dict_get fields "value" = None ->
          paginated_get fuel users_url (make_headers tok) (tr ++ [EvHttp token_request])
            = paginated_get_loop (fuel - List.length pages - 1)
                match dict_get fields "@odata.nextLink" with
                | Some link => link
                | None => JNull
                end
                (make_headers tok) (page_items pages)
                ((tr ++ [EvHttp token_request])
                   ++ map EvHttp (listing_calls (make_headers tok) (page_urls pages ++ [u])))).
Proof.
  intros fuel tr tok pages u r Htok Hurl Hserves Hu Hreply Hst Hfuel.
  assert (Hfetch :
    paginated_get fuel users_url (make_headers tok) (tr ++ [EvHttp token_request])
      = (data <- resp_json r ;;
         value <- lift (py_get data "value" (JArr [])) ;;
         items <- lift (py_iter value) ;;
         next <- lift (py_get data "@odata.nextLink" JNull) ;;
         paginated_get_loop (fuel - List.length pages - 1) next (make_headers tok)
           (page_items pages ++ items))
          ((tr ++ [EvHttp token_request])
             ++ map EvHttp (listing_calls (make_headers tok) (page_urls pages ++ [u])))).
  { rewrite <- Hurl. rewrite fetch_after_pages; [| |exact Hfuel].
    - replace (fuel - List.length pages)%nat
        with (S (fuel - List.length pages - 1)) at 1 by lia.
      rewrite (loop_body _ u _ _ _ r Hu); [|
        rewrite !requests_of_app, requests_of_http; simpl;
        rewrite <- app_assoc; exact Hreply | exact Hst].
      rewrite listing_trace. reflexivity.
    - rewrite requests_of_app. exact Hserves. }
  split; [|split].
  - intro Hjson. apply (main_fetch_raises fuel tr _ tok _ Htok).
    rewrite Hfetch. unfold bind, resp_json. rewrite Hjson. reflexivity.
  - intros v Hjson Hshape. apply (main_fetch_raises fuel tr _ tok _ Htok).
    rewrite Hfetch. unfold bind at 1. unfold resp_json. rewrite Hjson.
    unfold ret at 1. unfold bind at 1.
    destruct v; try reflexivity.
    exfalso. exact (Hshape fields eq_refl).
  - intros fields Hjson Hvalue.
    rewrite Hfetch. unfold bind at 1. unfold resp_json. rewrite Hjson.
    unfold ret at 1. unfold bind at 1. unfold py_get at 1. rewrite Hvalue.
    unfold lift at 1, ret at 1. unfold bind at 1.
    unfold py_iter, lift at 1, ret at 1. unfold bind at 1. unfold py_get.
    rewrite app_nil_r.
    destruct (dict_get fields "@odata.nextLink"); reflexivity.
Qed.

(** *** The headers of the requests *)

Lemma all_carry_nil : forall hdrs : header_map, all_carry hdrs [].
Proof. intro hdrs. constructor. Qed.

Lemma all_carry_app :
  forall (hdrs : header_map) (a b : trace),
    all_carry hdrs a -> all_carry hdrs b -> all_carry hdrs (a ++ b).
Proof.
  intros hdrs a b Ha Hb. unfold all_carry in *.
  rewrite requests_of_app. apply Forall_app. now split.
Qed.

Lemma carries_ret :
  forall (A : Type) (hdrs : header_map) (a : A), carries hdrs (ret a).
Proof.
  intros A hdrs a tr. exists []. simpl. rewrite app_nil_r.
  split; [reflexivity|apply all_carry_nil].
Qed.

Lemma carries_raise :
  forall (A : Type) (hdrs : header_map) (e : exn), carries hdrs (@raise A e).
Proof.
  intros A hdrs e tr. exists []. simpl. rewrite app_nil_r.
  split; [reflexivity|apply all_carry_nil].
Qed.

Lemma carries_lift :
  forall (A : Type) (hdrs : header_map) (x : exn + A), carries hdrs (lift x).
Proof.
  intros A hdrs [e|a]; [apply carries_raise|apply carries_ret].
Qed.

Lemma carries_print :
  forall (hdrs : header_map) (line : fstr), carries hdrs (print line).
Proof.
  intros hdrs line tr. exists [EvPrint line].
  split; [reflexivity|apply all_carry_nil].
Qed.

Lemma carries_http :
  forall (hdrs : header_map) (rq : Request),
    headers rq = Some hdrs -> carries hdrs (http rq).
Proof.
  intros hdrs rq Hrq tr. exists [EvHttp rq]. unfold http.
  split.
  - destruct (server (requests_of tr) rq); reflexivity.
  - constructor; [exact Hrq|constructor].
Qed.

Lemma carries_bind :
  forall (A B : Type) (hdrs : header_map) (m : M A) (k : A -> M B),
    carries hdrs m ->
    (forall a, carries hdrs (k a)) ->
    carries hdrs (bind m k).
Proof.
  intros A B hdrs m k Hm Hk tr. unfold bind.
  destruct (Hm tr) as (evs & Htr & Hevs).
  destruct (m tr) as [[a|e|] tr1]; simpl in Htr; subst tr1.
  - destruct (Hk a (tr ++ evs)) as (evs' & Htr' & Hevs').
    exists (evs ++ evs'). rewrite Htr', app_assoc.
    split; [reflexivity|now apply all_carry_app].
  - now exists evs.
  - now exists evs.
Qed.

Lemma carries_raise_for_status :
  forall (hdrs : header_map) (r : Response), carries hdrs (raise_for_status r).
Proof.
  intros hdrs r. unfold raise_for_status.
  destruct ((400 <=? status_code r) && (status_code r <? 600));
    [apply carries_raise|apply carries_ret].
Qed.

Lemma carries_resp_json :
  forall (hdrs : header_map) (r : Response), carries hdrs (resp_json r).
Proof.
  intros hdrs r. unfold resp_json.
  destruct (json r); [apply carries_ret|apply carries_raise].
Qed.

Lemma carries_loop :
  forall (hdrs : header_map) (fuel : nat) (u : pyval) (res : list pyval),
    carries hdrs (paginated_get_loop fuel u hdrs res).
Proof.
  intros hdrs fuel. induction fuel as [|fuel IH]; intros u res;
    cbn [paginated_get_loop]; destruct (truthy u); try apply carries_ret.
  - intro tr. exists []. simpl. rewrite app_nil_r.
    split; [reflexivity|apply all_carry_nil].
  - apply carries_bind; [now apply carries_http|intro resp].
    apply carries_bind; [apply carries_raise_for_status|intros _].
    apply carries_bind; [apply carries_resp_json|intro body].
    apply carries_bind; [apply carries_lift|intro value].
    apply carries_bind; [apply carries_lift|intro items].
    apply carries_bind; [apply carries_lift|intro next].
    apply IH.
Qed.

Lemma carries_follow_site :
  forall (hdrs : header_map) (user_id : pyval) (site_id : string),
    carries hdrs (follow_site user_id site_id hdrs).
Proof.
  intros hdrs user_id site_id. unfold follow_site.
  apply carries_bind; [now apply carries_http|intro resp].
  destruct ((status_code resp =? 200) || (status_code resp =? 204));
    apply carries_print.
Qed.

Lemma carries_for_each_user :
  forall (hdrs : header_map) (users : list pyval),
    carries hdrs (for_each_user hdrs users).
Proof.
  intros hdrs users. induction users as [|user rest IH]; cbn [for_each_user].
  - apply carries_ret.
  - apply carries_bind; [|intros _; exact IH].
    unfold process_user.
    apply carries_bind; [apply carries_lift|intro user_id].
    apply carries_bind; [apply carries_lift|intro user_name].
    apply carries_bind; [apply carries_print|intros _].
    apply carries_follow_site.
Qed.

(** C9: in every run, whatever its outcome, once [get_access_token] has
    returned a token, every request issued afterwards (every listing GET
    and every follow POST) carries the same two headers, with that token
    as received after [Bearer ]; none of them is a token call, so the
    token is never fetched again. *)
Theorem token_used_unmodified :
  forall (fuel : nat) (tr tr1 : trace) (tok : pyval),
    get_access_token tr = (Returned tok, tr1) ->
    exists evs : trace,
      snd (main fuel tr) = tr1 ++ evs
      /\ Forall (fun rq =>
                   headers rq
                   = Some [ ("Authorization", [Lit "Bearer "; Fmt tok]);
                            ("Content-Type", [Lit "application/json"]) ]
                   /\ rq <> token_request)
                (requests_of evs).
Proof.
  intros fuel tr tr1 tok Htoken.
  unfold main. unfold bind at 1. rewrite Htoken.
  assert (Hrest : carries (make_headers tok)
            (users <- paginated_get fuel users_url (make_headers tok) ;;
             print (found_line users) ;;;
             for_each_user (make_headers tok) users)).
  { apply carries_bind; [apply carries_loop|intro users].
    apply carries_bind; [apply carries_print|intros _].
    apply carries_for_each_user. }
  destruct (Hrest tr1) as (evs & Htr & Hevs).
  exists evs. split; [exact Htr|].
  unfold all_carry in Hevs. rewrite Forall_forall in *.
  intros rq Hin. specialize (Hevs rq Hin). split; [exact Hevs|].
  intros ->. discriminate Hevs.
Qed.

(** *** Further properties: the token step *)

Lemma get_access_token_dropped :
  forall tr : trace,
    server (requests_of tr) token_request = NoReply ->
    get_access_token tr = (Raised RequestException, tr ++ [EvHttp token_request]).
Proof.
  intros tr Hreply.
  unfold get_access_token, requests_post, http, bind.
  fold token_request. rewrite Hreply. reflexivity.
Qed.

Lemma main_token_raises :
  forall (fuel : nat) (tr tr1 : trace) (e : exn),
    get_access_token tr = (Raised e, tr1) ->
    main fuel tr = (Raised e, tr1).
Proof.
  intros fuel tr tr1 e Htoken. unfold main. unfold bind at 1.
  rewrite Htoken. reflexivity.
Qed.

(** X1: every way the token step can go wrong ends the run on the spot, the
    token call being the only event: no answer raises the transport
    error; with a status that is let through, a body that is not JSON
    raises the decoding error, a JSON body that is not an object raises
    a type error, and an object without [access_token] raises the key
    error. *)
Theorem token_step_failures :
  forall (fuel : nat) (tr : trace),
    (server (requests_of tr) token_request = NoReply ->
       main fuel tr = (Raised RequestException, tr ++ [EvHttp token_request]))
    /\ (forall r : Response,
          server (requests_of tr) token_request = Reply r ->
          ~ (400 <= status_code r < 600) ->
          (json r = None ->
             main fuel tr = (Raised JSONDecodeError, tr ++ [EvHttp token_request]))
          /\ (forall v : pyval,
                json r = Some v ->
                (forall fields, v <> JObj fields) ->
                main fuel tr = (Raised TypeError, tr ++ [EvHttp token_request]))
          /\ (forall fields : list (string * pyval),
                json r = Some (JObj fields) ->
                dict_get fields "access_token" = None ->
                main fuel tr
                  = (Raised (KeyError "access_token"), tr ++ [EvHttp token_request]))).
Proof.
  intros fuel tr. split.
  - intro Hreply. apply main_token_raises.
    now apply get_access_token_dropped.
  - intros r Hreply Hst. split; [|split].
    + intro Hjson. apply main_token_raises.
      unfold get_access_token, requests_post, http, bind.
      fold token_request. rewrite Hreply.
      unfold raise_for_status. rewrite (status_passes _ Hst).
      unfold ret, resp_json. rewrite Hjson. reflexivity.
    + intros v Hjson Hshape. apply main_token_raises.
      rewrite (get_access_token_body tr r v Hreply Hst Hjson).
      destruct v; try reflexivity.
      exfalso. exact (Hshape fields eq_refl).
    + intros fields Hjson Hfield. apply main_token_raises.
      rewrite (get_access_token_body tr r (JObj fields) Hreply Hst Hjson).
      simpl. rewrite Hfield. reflexivity.
Qed.

(** *** Further properties: the listing loop *)

Lemma loop_falsy :
  forall (fuel : nat) (u : pyval) (hdrs : header_map) (res : list pyval)
         (tr : trace),
    truthy u = false ->
    paginated_get_loop fuel u hdrs res tr = (Returned res, tr).
Proof.
  intros [|fuel] u hdrs res tr Hu; cbn [paginated_get_loop];
    rewrite Hu; reflexivity.
Qed.

Lemma loop_dropped :
  forall (fuel : nat) (u : string) (hdrs : header_map) (res : list pyval)
         (tr : trace),
    u <> "" ->
    server (requests_of tr) (get_request u hdrs) = NoReply ->
    paginated_get_loop (S fuel) (JStr u) hdrs res tr
      = (Raised RequestException, tr ++ [EvHttp (get_request u hdrs)]).
Proof.
  intros fuel u hdrs res tr Hu Hreply.
  cbn [paginated_get_loop]. rewrite (nonempty_truthy u Hu).
  unfold bind at 1. unfold requests_get, http.
  fold (get_request u hdrs). rewrite Hreply. reflexivity.
Qed.

(** After the pages served, the fetch stands at the next URL with the
    items collected so far and one iteration to spend. *)
Lemma fetch_reaches_page :
  forall (fuel : nat) (hdrs : header_map) (tr : trace)
         (pages : list (string * list pyval)) (u : string),
    serves_until hdrs (requests_of tr) pages (Some u) ->
    (List.length pages < fuel)%nat ->
    paginated_get fuel (JStr (hd u (page_urls pages))) hdrs tr
      = paginated_get_loop (S (fuel - List.length pages - 1)) (JStr u) hdrs
          (page_items pages)
          (tr ++ map EvHttp (listing_calls hdrs (page_urls pages))).
Proof.
  intros fuel hdrs tr pages u Hserves Hfuel.
  rewrite (fetch_after_pages fuel hdrs tr pages u Hserves Hfuel).
  replace (S (fuel - List.length pages - 1)) with (fuel - List.length pages)%nat
    by lia.
  reflexivity.
Qed.

Lemma fetch_reaches_body :
  forall (fuel : nat) (hdrs : header_map) (tr : trace)
         (pages : list (string * list pyval)) (u : string) (r : Response),
    serves_until hdrs (requests_of tr) pages (Some u) ->
    u <> "" ->
    server (requests_of tr ++ listing_calls hdrs (page_urls pages))
           (get_request u hdrs) = Reply r ->
    ~ (400 <= status_code r < 600) ->
    (List.length pages < fuel)%nat ->
    paginated_get fuel (JStr (hd u (page_urls pages))) hdrs tr
      = (data <- resp_json r ;;
         value <- lift (py_get data "value" (JArr [])) ;;
         items <- lift (py_iter value) ;;
         next <- lift (py_get data "@odata.nextLink" JNull) ;;
         paginated_get_loop (fuel - List.length pages - 1) next hdrs
           (page_items pages ++ items))
          (tr ++ map EvHttp (listing_calls hdrs (page_urls pages ++ [u]))).
Proof.
  intros fuel hdrs tr pages u r Hserves Hu Hreply Hst Hfuel.
  rewrite (fetch_reaches_page fuel hdrs tr pages u Hserves Hfuel).
  rewrite (loop_body _ u _ _ _ r Hu); [| |exact Hst].
  - rewrite listing_trace. reflexivity.
  - rewrite requests_of_app, requests_of_http. exact Hreply.
Qed.

(** X3: a next-page link that is present but falsy (the empty string, null,
    zero, false, an empty array or object) ends the listing like a
    missing one: the fetch returns what it has collected, the items of
    that page included, and issues no further call. *)
Theorem falsy_link_ends_listing :
  forall (fuel : nat) (hdrs : header_map) (tr : trace)
         (pages : list (string * list pyval)) (u : string) (r : Response)
         (fields : list (string * pyval)) (items : list pyval) (link : pyval),
    serves_until hdrs (requests_of tr) pages (Some u) ->
    u <> "" ->
    server (requests_of tr ++ listing_calls hdrs (page_urls pages))
           (get_request u hdrs) = Reply r ->
    ~ (400 <= status_code r < 600) ->
    json r = Some (JObj fields) ->
    dict_get fields "value" = Some (JArr items) ->
    dict_get fields "@odata.nextLink" = Some link ->
    truthy link = false ->
    (List.length pages < fuel)%nat ->
    paginated_get fuel (JStr (hd u (page_urls pages))) hdrs tr
      = (Returned (page_items pages ++ items),
         tr ++ map EvHttp (listing_calls hdrs (page_urls pages ++ [u]))).
Proof.
  intros fuel hdrs tr pages u r fields items link
         Hserves Hu Hreply Hst Hjson Hvalue Hlink Hfalsy Hfuel.
  rewrite (fetch_reaches_body fuel hdrs tr pages u r Hserves Hu Hreply Hst Hfuel).
  unfold bind at 1. unfold resp_json. rewrite Hjson. unfold ret at 1.
  unfold bind at 1. unfold py_get at 1. rewrite Hvalue.
  unfold lift at 1, ret at 1. unfold bind at 1.
  unfold py_iter, lift at 1, ret at 1. unfold bind at 1.
  unfold py_get. rewrite Hlink. unfold lift, ret.
  now apply loop_falsy.
Qed.

(** X4: in a run, a listing page whose [value] is present but null, a
    boolean or a number (unlike a missing [value]) raises a type error
    when its items are appended: the fetch and the run end at that
    call, and no user is processed. *)
Theorem value_not_iterable_aborts_run :
  forall (fuel : nat) (tr : trace) (tok : pyval)
         (pages : list (string * list pyval)) (u : string) (r : Response)
         (fields : list (string * pyval)) (v : pyval),
    token_granted (requests_of tr) tok ->
    JStr (hd u (page_urls pages)) = users_url ->
    serves_until (make_headers tok) (requests_of tr ++ [token_request]) pages (Some u) ->
    u <> "" ->
    server (requests_of tr ++ [token_request]
              ++ listing_calls (make_headers tok) (page_urls pages))
           (get_request u (make_headers tok)) = Reply r ->
    ~ (400 <= status_code r < 600) ->
    json r = Some (JObj fields) ->
    dict_get fields "value" = Some v ->
    not_iterable v ->
    (List.length pages < fuel)%nat ->
    main fuel tr
      = (Raised TypeError,
         (tr ++ [EvHttp token_request])
           ++ map EvHttp (listing_calls (make_headers tok) (page_urls pages ++ [u]))).
Proof.
  intros fuel tr tok pages u r fields v
         Htok Hurl Hserves Hu Hreply Hst Hjson Hvalue Hv Hfuel.
  apply (main_fetch_raises fuel tr _ tok _ Htok).
  rewrite <- Hurl.
  rewrite (fetch_reaches_body fuel _ _ pages u r); try assumption.
  - unfold bind at 1. unfold resp_json. rewrite Hjson. unfold ret at 1.
    unfold bind at 1. unfold py_get at 1. rewrite Hvalue.
    unfold lift at 1, ret at 1. unfold bind at 1.
    destruct v; try contradiction; reflexivity.
  - rewrite requests_of_app. exact Hserves.
  - rewrite requests_of_app. simpl. rewrite <- app_assoc. exact Hreply.
Qed.

(** X5: in a run, a listing call that gets no answer (after any number of
    pages served) raises the transport error: the fetch and the run end
    at that call, the items of the earlier pages are dropped and no
    follow call is issued. *)
Theorem listing_call_dropped_aborts_run :
  forall (fuel : nat) (tr : trace) (tok : pyval)
         (pages : list (string * list pyval)) (u : string),
    token_granted (requests_of tr) tok ->
    JStr (hd u (page_urls pages)) = users_url ->
    serves_until (make_headers tok) (requests_of tr ++ [token_request]) pages (Some u) ->
    u <> "" ->
    server (requests_of tr ++ [token_request]
              ++ listing_calls (make_headers tok) (page_urls pages))
           (get_request u (make_headers tok)) = NoReply ->
    (List.length pages < fuel)%nat ->
    main fuel tr
      = (Raised RequestException,
         (tr ++ [EvHttp token_request])
           ++ map EvHttp (listing_calls (make_headers tok) (page_urls pages ++ [u]))).
Proof.
  intros fuel tr tok pages u Htok Hurl Hserves Hu Hreply Hfuel.
  apply (main_fetch_raises fuel tr _ tok _ Htok).
  rewrite <- Hurl.
  rewrite (fetch_reaches_page fuel _ _ pages u); [|
    rewrite requests_of_app; exact Hserves | exact Hfuel].
  rewrite (loop_dropped _ u _ _ _ Hu).
  - rewrite listing_trace. reflexivity.
  - rewrite !requests_of_app, requests_of_http. simpl.
    rewrite <- app_assoc. exact Hreply.
Qed.

(** X6: a listing that links on for ever is followed for ever: whatever the
    budget of iterations, the loop spends all of it, one GET per
    iteration, and never returns. *)
Theorem endless_listing_never_returns :
  forall (hdrs : header_map),
    always_links hdrs ->
    forall (fuel : nat) (u : string) (res : list pyval) (tr : trace),
      u <> "" ->
      exists tr' : trace,
        paginated_get_loop fuel (JStr u) hdrs res tr = (Diverged, tr')
        /\ List.length (requests_of tr') = (List.length (requests_of tr) + fuel)%nat.
Proof.
  intros hdrs Hlinks fuel.
  induction fuel as [|fuel IH]; intros u res tr Hu.
  - exists tr. cbn [paginated_get_loop]. rewrite (nonempty_truthy u Hu).
    split; [reflexivity|lia].
  - destruct (Hlinks (requests_of tr) u) as (r & items & next & Hreply & Hpage & Hnext).
    rewrite (loop_step fuel u hdrs res tr r items (Some next) Hu Hreply Hpage).
    destruct (IH next (res ++ items) (tr ++ [EvHttp (get_request u hdrs)]) Hnext)
      as (tr' & Hrun & Hcount).
    exists tr'. split; [exact Hrun|].
    rewrite Hcount, requests_of_app, length_app. simpl. lia.
Qed.

(** *** Further properties: the loop over the users *)

(** The loop passes the users whose follow call is answered. *)
Lemma for_each_user_prefix :
  forall (hdrs : header_map) (pre ids : list pyval),
    ids_of pre ids ->
    forall (tr : trace) (rest : list pyval),
      (forall (k : nat) (j : pyval),
         nth_error ids k = Some j ->
         server (requests_of tr ++ follow_calls hdrs (firstn k ids))
                (follow_request j SPECIFIC_SITE_ID hdrs) <> NoReply) ->
      exists evs : trace,
        for_each_user hdrs (pre ++ rest) tr = for_each_user hdrs rest (tr ++ evs)
        /\ requests_of evs = follow_calls hdrs ids.
Proof.
  intros hdrs pre ids Hids.
  induction Hids as [|user i pre ids Hid Hrest IH]; intros tr rest Hans.
  - exists []. rewrite app_nil_r. split; reflexivity.
  - destruct (subscript_dict _ _ _ Hid) as (fields & -> & Hfield).
    pose proof (Hans 0%nat i eq_refl) as Hfirst.
    simpl in Hfirst. rewrite app_nil_r in Hfirst.
    destruct (server (requests_of tr) (follow_request i SPECIFIC_SITE_ID hdrs))
      as [r|] eqn:Hreply; [|contradiction].
    cbn [app for_each_user]. unfold bind at 1.
    rewrite (process_user_run hdrs fields i tr r Hfield Hreply).
    match goal with |- context [for_each_user hdrs (pre ++ rest) ?t] =>
      destruct (IH t rest) as (evs & Hrun & Hreqs) end.
    + intros k j Hnth. rewrite requests_of_app. simpl requests_of.
      rewrite <- app_assoc. exact (Hans (S k) j Hnth).
    + rewrite Hrun. eexists. split; [rewrite <- app_assoc; reflexivity|].
      simpl. rewrite Hreqs. reflexivity.
Qed.

Lemma follow_site_dropped :
  forall (user_id : pyval) (site_id : string) (hdrs : header_map) (tr : trace),
    server (requests_of tr) (follow_request user_id site_id hdrs) = NoReply ->
    follow_site user_id site_id hdrs tr
      = (Raised RequestException,
         tr ++ [EvHttp (follow_request user_id site_id hdrs)]).
Proof.
  intros user_id site_id hdrs tr Hreply.
  unfold follow_site, requests_post, http, bind.
  fold (follow_request user_id site_id hdrs). rewrite Hreply. reflexivity.
Qed.

Lemma process_user_dropped :
  forall (hdrs : header_map) (fields : list (string * pyval)) (user_id : pyval)
         (tr : trace),
    dict_get fields "id" = Some user_id ->
    server (requests_of tr) (follow_request user_id SPECIFIC_SITE_ID hdrs) = NoReply ->
    process_user hdrs (JObj fields) tr
      = (Raised RequestException,
         tr ++ [EvPrint (processing_line
                           match dict_get fields "userPrincipalName" with
                           | Some name => name
                           | None => user_id
                           end);
                EvHttp (follow_request user_id SPECIFIC_SITE_ID hdrs)]).
Proof.
  intros hdrs fields user_id tr Hid Hreply.
  unfold process_user, bind, lift, subscript, py_get. rewrite Hid.
  unfold ret at 1.
  destruct (dict_get fields "userPrincipalName") as [name|];
    unfold ret, print;
    (rewrite (follow_site_dropped user_id SPECIFIC_SITE_ID hdrs);
     [rewrite <- app_assoc; reflexivity
     |rewrite requests_of_print; exact Hreply]).
Qed.

(** X7: in a run, a follow call that gets no answer is not a per-user
    failure: the transport error ends the run at that user, after the
    progress line and the attempted call; the users before got their
    call, the users after get none. *)
Theorem follow_call_dropped_aborts_run :
  forall (fuel : nat) (tr tr2 : trace) (tok : pyval) (pre ids : list pyval)
         (user i : pyval) (post : list pyval),
    token_granted (requests_of tr) tok ->
    paginated_get fuel users_url (make_headers tok) (tr ++ [EvHttp token_request])
      = (Returned (pre ++ user :: post), tr2) ->
    ids_of pre ids ->
    subscript user "id" = inr i ->
    (forall (k : nat) (j : pyval),
       nth_error ids k = Some j ->
       server (requests_of tr2 ++ follow_calls (make_headers tok) (firstn k ids))
              (follow_request j SPECIFIC_SITE_ID (make_headers tok)) <> NoReply) ->
    server (requests_of tr2 ++ follow_calls (make_headers tok) ids)
           (follow_request i SPECIFIC_SITE_ID (make_headers tok)) = NoReply ->
    exists evs : trace,
      main fuel tr = (Raised RequestException, tr2 ++ evs)
      /\ requests_of evs = follow_calls (make_headers tok) (ids ++ [i]).
Proof.
  intros fuel tr tr2 tok pre ids user i post Htok Hfetch Hids Hid Hans Hdrop.
  rewrite (main_after_fetch fuel tr tr2 tok _ Htok Hfetch).
  destruct (for_each_user_prefix (make_headers tok) pre ids Hids
              (tr2 ++ [EvPrint (found_line (pre ++ user :: post))])
              (user :: post)) as (evs & Hrun & Hreqs).
  { intros k j Hnth. rewrite requests_of_print. exact (Hans k j Hnth). }
  rewrite Hrun.
  destruct (subscript_dict _ _ _ Hid) as (fields & -> & Hfield).
  cbn [for_each_user]. unfold bind at 1.
  rewrite (process_user_dropped (make_headers tok) fields i _ Hfield).
  - eexists. split; [rewrite <- !app_assoc; reflexivity|].
    rewrite !requests_of_app, Hreqs. simpl.
    unfold follow_calls. rewrite map_app. reflexivity.
  - rewrite requests_of_app, requests_of_print, Hreqs. exact Hdrop.
Qed.

(** X8: in a run, a fetched record that is not a JSON object (a string, a
    number, null, an array) cannot be subscripted: the type error ends
    the run at that record; the users before got their follow call, the
    record and the users after get none. *)
Theorem non_object_record_aborts_run :
  forall (fuel : nat) (tr tr2 : trace) (tok : pyval) (pre ids : list pyval)
         (v : pyval) (post : list pyval),
    token_granted (requests_of tr) tok ->
    paginated_get fuel users_url (make_headers tok) (tr ++ [EvHttp token_request])
      = (Returned (pre ++ v :: post), tr2) ->
    ids_of pre ids ->
    follow_answers (make_headers tok) ->
    (forall fields, v <> JObj fields) ->
    exists evs : trace,
      main fuel tr = (Raised TypeError, tr2 ++ evs)
      /\ requests_of evs = follow_calls (make_headers tok) ids.
Proof.
  intros fuel tr tr2 tok pre ids v post Htok Hfetch Hids Hans Hshape.
  rewrite (main_after_fetch fuel tr tr2 tok _ Htok Hfetch).
  destruct (for_each_user_prefix (make_headers tok) pre ids Hids
              (tr2 ++ [EvPrint (found_line (pre ++ v :: post))])
              (v :: post)) as (evs & Hrun & Hreqs).
  { intros k j _. apply Hans. }
  rewrite Hrun. exists (EvPrint (found_line (pre ++ v :: post)) :: evs).
  split; [|exact Hreqs].
  cbn [for_each_user]. unfold bind at 1. unfold process_user, bind, lift.
  destruct v; simpl; try (rewrite <- app_assoc; reflexivity).
  exfalso. exact (Hshape fields eq_refl).
Qed.

Lemma for_each_user_events :
  forall (hdrs : header_map) (users ids : list pyval),
    ids_of users ids ->
    follow_answers hdrs ->
    forall tr : trace,
    exists rows : list (pyval * pyval * fstr),
      for_each_user hdrs users tr
        = (Returned tt, tr ++ flat_map (user_events hdrs) rows)
      /\ Forall2 row_of users rows.
Proof.
  intros hdrs users ids Hids Hans.
  induction Hids as [|user i users ids Hid Hrest IH]; intro tr.
  - exists []. simpl. rewrite app_nil_r. split; [reflexivity|constructor].
  - destruct (subscript_dict _ _ _ Hid) as (fields & -> & Hfield).
    destruct (follow_reply hdrs (requests_of tr) i Hans) as [r Hreply].
    cbn [for_each_user]. unfold bind.
    rewrite (process_user_run hdrs fields i tr r Hfield Hreply).
    match goal with |- context [for_each_user hdrs users ?t] =>
      destruct (IH t) as (rows & Hrun & Hrows) end.
    rewrite Hrun.
    eexists ((_, i, _) :: rows). split.
    + cbn [flat_map user_events]. rewrite <- app_assoc. reflexivity.
    + constructor; [|exact Hrows].
      unfold row_of. split; [exact Hid|]. split.
      * simpl. destruct (dict_get fields "userPrincipalName"); reflexivity.
      * destruct ((status_code r =? 200) || (status_code r =? 204));
          [left; reflexivity|right; now exists (text r)].
Qed.

(** X9: a run whose fetch returns users that all have an [id], with every
    follow call answered, prints the count of users right after the
    fetch and then, user by user in the order of the list, exactly: the
    progress line (showing [userPrincipalName], or the [id] when that
    field is missing), the follow call for the [id], and one report
    line for it; nothing comes between or after. *)
Theorem run_events_in_order :
  forall (fuel : nat) (tr tr2 : trace) (tok : pyval) (users ids : list pyval),
    token_granted (requests_of tr) tok ->
    paginated_get fuel users_url (make_headers tok) (tr ++ [EvHttp token_request])
      = (Returned users, tr2) ->
    ids_of users ids ->
    follow_answers (make_headers tok) ->
    exists rows : list (pyval * pyval * fstr),
      main fuel tr
        = (Returned tt,
           tr2 ++ EvPrint (found_line users)
               :: flat_map (user_events (make_headers tok)) rows)
      /\ Forall2 row_of users rows.
Proof.
  intros fuel tr tr2 tok users ids Htok Hfetch Hids Hans.
  rewrite (main_after_fetch fuel tr tr2 tok users Htok Hfetch).
  destruct (for_each_user_events (make_headers tok) users ids Hids Hans
              (tr2 ++ [EvPrint (found_line users)])) as (rows & Hrun & Hrows).
  exists rows. split; [|exact Hrows].
  rewrite Hrun, <- app_assoc. reflexivity.
Qed.

(** *** Further properties: the shape of every run *)

Lemma emits_ret :
  forall (A : Type) (P : trace -> Prop) (a : A), P [] -> emits P (ret a).
Proof.
  intros A P a HP tr. exists []. simpl. rewrite app_nil_r. now split.
Qed.

Lemma emits_raise :
  forall (A : Type) (P : trace -> Prop) (e : exn), P [] -> emits P (@raise A e).
Proof.
  intros A P e HP tr. exists []. simpl. rewrite app_nil_r. now split.
Qed.

Lemma emits_lift :
  forall (A : Type) (P : trace -> Prop) (x : exn + A), P [] -> emits P (lift x).
Proof.
  intros A P [e|a] HP; [now apply emits_raise|now apply emits_ret].
Qed.

Lemma emits_bind :
  forall (A B : Type) (P : trace -> Prop) (m : M A) (k : A -> M B),
    (forall a b, P a -> P b -> P (a ++ b)) ->
    emits P m ->
    (forall a, emits P (k a)) ->
    emits P (bind m k).
Proof.
  intros A B P m k Happ Hm Hk tr. unfold bind.
  destruct (Hm tr) as (evs & Htr & Hevs).
  destruct (m tr) as [[a|e|] tr1]; simpl in Htr; subst tr1.
  - destruct (Hk a (tr ++ evs)) as (evs' & Htr' & Hevs').
    exists (evs ++ evs'). rewrite Htr', app_assoc.
    split; [reflexivity|now apply Happ].
  - now exists evs.
  - now exists evs.
Qed.

Lemma only_gets_nil : forall hdrs : header_map, only_gets hdrs [].
Proof. intro hdrs. now exists []. Qed.

Lemma only_gets_app :
  forall (hdrs : header_map) (a b : trace),
    only_gets hdrs a -> only_gets hdrs b -> only_gets hdrs (a ++ b).
Proof.
  intros hdrs a b [ua ->] [ub ->]. exists (ua ++ ub).
  now rewrite !map_app.
Qed.

Lemma only_follows_nil : forall hdrs : header_map, only_follows hdrs [].
Proof. intro hdrs. now exists []. Qed.

Lemma only_follows_app :
  forall (hdrs : header_map) (a b : trace),
    only_follows hdrs a -> only_follows hdrs b -> only_follows hdrs (a ++ b).
Proof.
  intros hdrs a b [ia Ha] [ib Hb]. exists (ia ++ ib).
  rewrite requests_of_app, Ha, Hb. unfold follow_calls. now rewrite map_app.
Qed.

Lemma loop_only_gets :
  forall (hdrs : header_map) (fuel : nat) (u : pyval) (res : list pyval),
    emits (only_gets hdrs) (paginated_get_loop fuel u hdrs res).
Proof.
  intros hdrs fuel. induction fuel as [|fuel IH]; intros u res;
    cbn [paginated_get_loop]; destruct (truthy u);
    try (apply emits_ret; apply only_gets_nil).
  - intro tr. exists []. simpl. rewrite app_nil_r.
    split; [reflexivity|apply only_gets_nil].
  - apply emits_bind; [apply only_gets_app| |intro resp].
    { intro tr. exists [EvHttp (get_call u hdrs)]. split.
      - unfold requests_get, http. fold (get_call u hdrs).
        destruct (server (requests_of tr) (get_call u hdrs)); reflexivity.
      - now exists [u]. }
    apply emits_bind; [apply only_gets_app| |intros _].
    { unfold raise_for_status.
      destruct ((400 <=? status_code resp) && (status_code resp <? 600));
        [apply emits_raise|apply emits_ret]; apply only_gets_nil. }
    apply emits_bind; [apply only_gets_app| |intro body].
    { unfold resp_json. destruct (json resp);
        [apply emits_ret|apply emits_raise]; apply only_gets_nil. }
    apply emits_bind; [apply only_gets_app|apply emits_lift, only_gets_nil|intro value].
    apply emits_bind; [apply only_gets_app|apply emits_lift, only_gets_nil|intro items].
    apply emits_bind; [apply only_gets_app|apply emits_lift, only_gets_nil|intro next].
    apply IH.
Qed.

Lemma emits_print_follows :
  forall (hdrs : header_map) (line : fstr),
    emits (only_follows hdrs) (print line).
Proof.
  intros hdrs line tr. exists [EvPrint line].
  split; [reflexivity|now exists []].
Qed.

Lemma for_each_user_only_follows :
  forall (hdrs : header_map) (users : list pyval),
    emits (only_follows hdrs) (for_each_user hdrs users).
Proof.
  intros hdrs users. induction users as [|user rest IH]; cbn [for_each_user].
  - apply emits_ret, only_follows_nil.
  - apply emits_bind; [apply only_follows_app| |intros _; exact IH].
    unfold process_user.
    apply emits_bind; [apply only_follows_app|apply emits_lift, only_follows_nil|intro user_id].
    apply emits_bind; [apply only_follows_app|apply emits_lift, only_follows_nil|intro user_name].
    apply emits_bind; [apply only_follows_app|apply emits_print_follows|intros _].
    unfold follow_site.
    apply emits_bind; [apply only_follows_app| |intro resp].
    + intro tr. exists [EvHttp (follow_request user_id SPECIFIC_SITE_ID hdrs)]. split.
      * unfold requests_post, http.
        fold (follow_request user_id SPECIFIC_SITE_ID hdrs).
        destruct (server (requests_of tr)
                    (follow_request user_id SPECIFIC_SITE_ID hdrs)); reflexivity.
      * now exists [user_id].
    + destruct ((status_code resp =? 200) || (status_code resp =? 204));
        apply emits_print_follows.
Qed.

(** Whatever its outcome, the token step issues the token call and
    nothing else. *)
Lemma token_one_call :
  forall tr : trace,
    snd (get_access_token tr) = tr ++ [EvHttp token_request].
Proof.
  intro tr. unfold get_access_token, requests_post, http, bind.
  fold token_request.
  destruct (server (requests_of tr) token_request) as [r|]; [|reflexivity].
  unfold raise_for_status.
  destruct ((400 <=? status_code r) && (status_code r <? 600)); [reflexivity|].
  unfold ret at 1. unfold resp_json.
  destruct (json r) as [body|]; [|reflexivity].
  unfold ret at 1.
  destruct (subscript body "access_token"); reflexivity.
Qed.

(** X2: every run, whatever the remote side does and however the run ends,
    issues its calls in three phases: the token call, exactly once and
    first; then listing GETs only; then follow POSTs for the configured
    site only.  No listing call comes after a follow call, and all calls
    after the first carry the headers built from one token. *)
Theorem run_shape :
  forall (fuel : nat) (tr : trace),
  exists (urls ids : list pyval) (tok : pyval),
    requests_of (snd (main fuel tr))
      = requests_of tr
          ++ token_request
          :: map (fun u => get_call u (make_headers tok)) urls
          ++ follow_calls (make_headers tok) ids.
Proof.
  intros fuel tr. unfold main. unfold bind at 1.
  pose proof (token_one_call tr) as Htoken.
  destruct (get_access_token tr) as [[tok|e|] tr1]; simpl in Htoken; subst tr1.
  - unfold bind at 1.
    destruct (loop_only_gets (make_headers tok) fuel users_url []
                (tr ++ [EvHttp token_request])) as (gets & Hgets & urls & ->).
    fold (paginated_get fuel users_url (make_headers tok)) in Hgets.
    destruct (paginated_get fuel users_url (make_headers tok)
                (tr ++ [EvHttp token_request])) as [[users|e|] tr2];
      simpl in Hgets; subst tr2.
    + unfold bind at 1. unfold print at 1.
      match goal with |- context [for_each_user _ _ ?t] =>
        destruct (for_each_user_only_follows (make_headers tok) users t)
          as (evs & Hevs & ids & Hids) end.
      exists urls, ids, tok. rewrite Hevs.
      rewrite !requests_of_app, requests_of_http, Hids. simpl.
      rewrite app_nil_r, <- !app_assoc. reflexivity.
    + exists urls, [], tok. simpl snd.
      rewrite !requests_of_app, requests_of_http. simpl.
      rewrite app_nil_r, <- app_assoc. reflexivity.
    + exists urls, [], tok. simpl snd.
      rewrite !requests_of_app, requests_of_http. simpl.
      rewrite app_nil_r, <- app_assoc. reflexivity.
  - exists [], [], JNull. simpl snd. rewrite requests_of_app. reflexivity.
  - exists [], [], JNull. simpl snd. rewrite requests_of_app. reflexivity.
Qed.

End Script.

(** ** The properties on sample runs *)

Local Abbreviation sample_main sc :=
  (main tenant client secret site (scenario_server sc)).
Local Abbreviation sample_token_call := (token_request tenant client secret).
Local Abbreviation sample_headers := (make_headers (JStr "T1")).
Local Abbreviation sample_follow i := (follow_request (JStr i) site sample_headers).

Ltac sample_token :=
  do 2 eexists; split; [reflexivity|]; split; [simpl; lia|];
  split; reflexivity.

Ltac sample_page :=
  eexists; split; [reflexivity|]; split; [simpl; lia|];
  eexists; split; [reflexivity|]; split; reflexivity.

Ltac sample_follow_answers :=
  intros ? ?; unfold follow_request, scenario_server; simpl; discriminate.

Lemma follow_site_outcome_witness :
  (exists line : fstr,
     follow_site (scenario_server single_page_run) (JStr "u1") site
       sample_headers []
     = (Returned tt,
        [] ++ [EvHttp
                 (mkRequest POST
                    [ Lit "https://graph.microsoft.com/beta"; Lit "/users/";
                      Fmt (JStr "u1"); Lit "/followedSites/add" ]
                    (Some sample_headers)
                    (JsonDumps (JObj [("value", JArr [JObj [("id", JStr site)]])])))]
           ++ [EvPrint line])
     /\ (line = [ Lit "    ✅ User "; Fmt (JStr "u1");
                  Lit " now follows site "; Lit site ]
          <-> 204 = 200 \/ 204 = 204)
     /\ (line = [ Lit "    ❌ Failed for "; Fmt (JStr "u1"); Lit ": "; Lit "" ]
          <-> ~ (204 = 200 \/ 204 = 204)))
  /\ (exists line : fstr,
        follow_site (scenario_server single_page_run) (JStr "u2") site
          sample_headers []
        = (Returned tt,
           [] ++ [EvHttp
                    (mkRequest POST
                       [ Lit "https://graph.microsoft.com/beta"; Lit "/users/";
                         Fmt (JStr "u2"); Lit "/followedSites/add" ]
                       (Some sample_headers)
                       (JsonDumps (JObj [("value", JArr [JObj [("id", JStr site)]])])))]
              ++ [EvPrint line])
        /\ (line = [ Lit "    ✅ User "; Fmt (JStr "u2");
                     Lit " now follows site "; Lit site ]
             <-> 403 = 200 \/ 403 = 204)
        /\ (line = [ Lit "    ❌ Failed for "; Fmt (JStr "u2"); Lit ": ";
                     Lit "Forbidden" ]
             <-> ~ (403 = 200 \/ 403 = 204))).
Proof.
  split.
  - refine (follow_site_outcome (scenario_server single_page_run) (JStr "u1") site
              sample_headers [] (mkResponse 204 "" None) _).
    reflexivity.
  - refine (follow_site_outcome (scenario_server single_page_run) (JStr "u2") site
              sample_headers [] (mkResponse 403 "Forbidden" None) _).
    reflexivity.
Defined.

Lemma paginated_get_concatenates_witness :
  exists tr' : trace,
    paginated_get (scenario_server two_page_run) 2 (JStr users_endpoint)
      sample_headers []
      = (Returned [u1; u2; u3], tr')
    /\ List.length [u1; u2; u3] = (2 + 1)%nat.
Proof.
  refine (paginated_get_concatenates (scenario_server two_page_run)
            sample_headers [] two_page_listing 2 _ _).
  - split; [discriminate|]. simpl.
    split; [discriminate|]. split; [sample_page|].
    split; [discriminate|]. split; [sample_page|]. exact I.
  - simpl. lia.
Defined.

Lemma get_access_token_cases_witness :
  (400 <= 200 < 600 ->
     get_access_token tenant client secret (scenario_server single_page_run) []
       = (Raised (HTTPError 200), [EvHttp sample_token_call]))
  /\ (forall (fields : list (string * pyval)) (tok : pyval),
        ~ (400 <= 200 < 600) ->
        Some (JObj [("access_token", JStr "T1")]) = Some (JObj fields) ->
        dict_get fields "access_token" = Some tok ->
        get_access_token tenant client secret (scenario_server single_page_run) []
          = (Returned tok, [EvHttp sample_token_call]))
  /\ (forall fields : list (string * pyval),
        ~ (400 <= 200 < 600) ->
        Some (JObj [("access_token", JStr "T1")]) = Some (JObj fields) ->
        dict_get fields "access_token" = None ->
        get_access_token tenant client secret (scenario_server single_page_run) []
          = (Raised (KeyError "access_token"), [EvHttp sample_token_call])).
Proof.
  refine (get_access_token_cases tenant client secret
            (scenario_server single_page_run) [] (token_body "T1") _).
  reflexivity.
Defined.

Lemma follow_failure_does_not_stop_witness :
  exists evs : trace,
    sample_main two_page_run 2 []
      = (Returned tt,
         [EvHttp sample_token_call;
          EvHttp (get_request users_endpoint sample_headers);
          EvHttp (get_request second_page sample_headers)] ++ evs)
    /\ requests_of evs
       = [ (mkRequest POST
              [ Lit "https://graph.microsoft.com/beta"; Lit "/users/";
                Fmt (JStr "u1"); Lit "/followedSites/add" ]
              (Some sample_headers)
              (JsonDumps (JObj [("value", JArr [JObj [("id", JStr site)]])])));
           (mkRequest POST
              [ Lit "https://graph.microsoft.com/beta"; Lit "/users/";
                Fmt (JStr "u2"); Lit "/followedSites/add" ]
              (Some sample_headers)
              (JsonDumps (JObj [("value", JArr [JObj [("id", JStr site)]])])));
           (mkRequest POST
              [ Lit "https://graph.microsoft.com/beta"; Lit "/users/";
                Fmt (JStr "u3"); Lit "/followedSites/add" ]
              (Some sample_headers)
              (JsonDumps (JObj [("value", JArr [JObj [("id", JStr site)]])]))) ]
    /\ scenario_server two_page_run
         [ sample_token_call;
           get_request users_endpoint sample_headers;
           get_request second_page sample_headers;
           (mkRequest POST
              [ Lit "https://graph.microsoft.com/beta"; Lit "/users/";
                Fmt (JStr "u1"); Lit "/followedSites/add" ]
              (Some sample_headers)
              (JsonDumps (JObj [("value", JArr [JObj [("id", JStr site)]])]))) ]
         (mkRequest POST
            [ Lit "https://graph.microsoft.com/beta"; Lit "/users/";
              Fmt (JStr "u2"); Lit "/followedSites/add" ]
            (Some sample_headers)
            (JsonDumps (JObj [("value", JArr [JObj [("id", JStr site)]])])))
       = Reply (mkResponse 403 "Forbidden" None)
    /\ In (EvPrint [ Lit "    ❌ Failed for "; Fmt (JStr "u2"); Lit ": ";
                     Lit "Forbidden" ])
          evs.
Proof.
  destruct (follow_failure_does_not_stop tenant client secret site
              (scenario_server two_page_run) 2 []
              [EvHttp sample_token_call;
               EvHttp (get_request users_endpoint sample_headers);
               EvHttp (get_request second_page sample_headers)]
              (JStr "T1") [u1; u2; u3] [JStr "u1"; JStr "u2"; JStr "u3"])
    as (evs & Hrun & Hreqs & Hfail).
  - sample_token.
  - reflexivity.
  - repeat constructor.
  - sample_follow_answers.
  - exists evs. split; [exact Hrun|]. split; [exact Hreqs|].
    split; [reflexivity|].
    apply (Hfail 1%nat (JStr "u2") (mkResponse 403 "Forbidden" None)).
    + reflexivity.
    + reflexivity.
    + intros [H|H]; discriminate H.
Defined.


Lemma missing_id_aborts_run_witness :
  (exists evs : trace,
     sample_main missing_id_run 1 []
       = (Raised (KeyError "id"),
          [EvHttp sample_token_call;
           EvHttp (get_request users_endpoint sample_headers)] ++ evs)
     /\ requests_of evs = [sample_follow "u1"])
  /\ forall (ufields : list (string * pyval)) (user_id : pyval) (tr' : trace),
       dict_get ufields "id" = Some user_id ->
       exists (name : pyval) (line : fstr),
         process_user site (scenario_server missing_id_run) sample_headers
           (JObj ufields) tr'
           = (Returned tt,
              tr' ++ [EvPrint (processing_line name);
                      EvHttp (follow_request user_id site sample_headers);
                      EvPrint line])
         /\ (dict_get ufields "userPrincipalName" = None -> name = user_id).
Proof.
  refine (missing_id_aborts_run tenant client secret site
            (scenario_server missing_id_run) 1 []
            [EvHttp sample_token_call;
             EvHttp (get_request users_endpoint sample_headers)]
            (JStr "T1") [u1] [JStr "u1"] nameless [u3] _ _ _ _ _).
  - sample_token.
  - reflexivity.
  - repeat constructor.
  - sample_follow_answers.
  - reflexivity.
Defined.

Lemma token_refusal_aborts_run_witness :
  sample_main refused_token_run 1 []
    = (Raised (HTTPError 401), [EvHttp sample_token_call]).
Proof.
  refine (token_refusal_aborts_run tenant client secret site
            (scenario_server refused_token_run) 1 [] unauthorized _ _).
  - reflexivity.
  - simpl. lia.
Defined.

Lemma listing_refusal_aborts_run_witness :
  paginated_get (scenario_server refused_page_run) 2 users_url sample_headers
    [EvHttp sample_token_call]
    = (Raised (HTTPError 503),
       [EvHttp sample_token_call;
        EvHttp (get_request users_endpoint sample_headers);
        EvHttp (get_request second_page sample_headers)])
  /\ sample_main refused_page_run 2 []
     = (Raised (HTTPError 503),
        [EvHttp sample_token_call;
         EvHttp (get_request users_endpoint sample_headers);
         EvHttp (get_request second_page sample_headers)]).
Proof.
  refine (listing_refusal_aborts_run tenant client secret site
            (scenario_server refused_page_run) 2 [] (JStr "T1")
            one_page_listing second_page unavailable _ _ _ _ _ _ _).
  - sample_token.
  - reflexivity.
  - simpl. split; [discriminate|]. split; [sample_page|]. exact I.
  - discriminate.
  - reflexivity.
  - simpl. lia.
  - simpl. lia.
Defined.

Lemma listing_body_shapes_witness :
  (Some (JObj []) = None ->
     sample_main no_value_run 1 []
       = (Raised JSONDecodeError,
          [EvHttp sample_token_call;
           EvHttp (get_request users_endpoint sample_headers)]))
  /\ (forall v : pyval,
        Some (JObj []) = Some v ->
        (forall fields, v <> JObj fields) ->
        sample_main no_value_run 1 []
          = (Raised AttributeError,
             [EvHttp sample_token_call;
              EvHttp (get_request users_endpoint sample_headers)]))
  /\ (forall fields : list (string * pyval),
        Some (JObj []) = Some (JObj fields) ->
        dict_get fields "value" = None ->
        paginated_get (scenario_server no_value_run) 1 users_url sample_headers
          [EvHttp sample_token_call]
          = paginated_get_loop (scenario_server no_value_run) 0
              match dict_get fields "@odata.nextLink" with
              | Some link => link
              | None => JNull
              end
              sample_headers []
              [EvHttp sample_token_call;
               EvHttp (get_request users_endpoint sample_headers)]).
Proof.
  refine (listing_body_shapes tenant client secret site
            (scenario_server no_value_run) 1 [] (JStr "T1")
            [] users_endpoint page_without_value _ _ _ _ _ _ _).
  - sample_token.
  - reflexivity.
  - exact I.
  - discriminate.
  - reflexivity.
  - simpl. lia.
  - simpl. lia.
Defined.

Lemma token_used_unmodified_witness :
  exists evs : trace,
    snd (sample_main single_page_run 1 []) = [EvHttp sample_token_call] ++ evs
    /\ Forall (fun rq =>
                 headers rq
                 = Some [ ("Authorization", [Lit "Bearer "; Fmt (JStr "T1")]);
                          ("Content-Type", [Lit "application/json"]) ]
                 /\ rq <> sample_token_call)
              (requests_of evs).
Proof.
  refine (token_used_unmodified tenant client secret site
            (scenario_server single_page_run) 1 [] [EvHttp sample_token_call]
            (JStr "T1") _).
  reflexivity.
Defined.

(** ** Where the script departs from what is said of it *)

(** C3 as stated fails: a token response with status 300 (not a success
    status) and a token in its body does not stop the run; the listing
    call and the follow calls are issued. *)
Lemma token_status_300_run_goes_on :
  scenario_server soft_token_run [] sample_token_call = Reply token_body_300
  /\ status_code token_body_300 = 300
  /\ fst (sample_main soft_token_run 1 []) = Returned tt
  /\ requests_of (snd (sample_main soft_token_run 1 []))
     = [sample_token_call;
        get_request users_endpoint sample_headers;
        sample_follow "u1"; sample_follow "u2"].
Proof.
  repeat split.
Qed.

(** C4 as stated fails: a listing response with status 300 and a page in
    its body does not fail the fetch; the users it holds are handed over
    and get their follow calls. *)
Lemma listing_status_300_run_goes_on :
  scenario_server soft_page_run [sample_token_call]
    (get_request users_endpoint sample_headers) = Reply page_300
  /\ status_code page_300 = 300
  /\ fst (paginated_get (scenario_server soft_page_run) 1 users_url sample_headers
            [EvHttp sample_token_call])
     = Returned [u1; u2]
  /\ fst (sample_main soft_page_run 1 []) = Returned tt
  /\ requests_of (snd (sample_main soft_page_run 1 []))
     = [sample_token_call;
        get_request users_endpoint sample_headers;
        sample_follow "u1"; sample_follow "u2"].
Proof.
  repeat split.
Qed.

(** C6 as stated fails twice: with status 200 and an [access_token]
    field the returned value need not be a non-empty string (here the
    field is the empty string), and with the non-2xx status 300 the call
    does not fail when the body holds the field. *)
Lemma get_access_token_empty_or_300 :
  scenario_server empty_token_run [] sample_token_call = Reply (token_body "")
  /\ status_code (token_body "") = 200
  /\ get_access_token tenant client secret (scenario_server empty_token_run) []
     = (Returned (JStr ""), [EvHttp sample_token_call])
  /\ scenario_server soft_token_run [] sample_token_call = Reply token_body_300
  /\ status_code token_body_300 = 300
  /\ get_access_token tenant client secret (scenario_server soft_token_run) []
     = (Returned (JStr "T1"), [EvHttp sample_token_call]).
Proof.
  repeat split.
Qed.

(** C7 as stated fails: a listing response that is an object without
    [value] raises nothing; the fetch returns the empty list and the run
    ends normally after printing the count. *)
Lemma listing_without_value_is_tolerated :
  scenario_server no_value_run [sample_token_call]
    (get_request users_endpoint sample_headers) = Reply page_without_value
  /\ json page_without_value = Some (JObj [])
  /\ paginated_get (scenario_server no_value_run) 1 users_url sample_headers
       [EvHttp sample_token_call]
     = (Returned [],
        [EvHttp sample_token_call;
         EvHttp (get_request users_endpoint sample_headers)])
  /\ sample_main no_value_run 1 []
     = (Returned tt,
        [EvHttp sample_token_call;
         EvHttp (get_request users_endpoint sample_headers);
         EvPrint (found_line [])]).
Proof.
  repeat split.
Qed.

(** ** The further properties on sample runs *)

Lemma token_step_failures_witness :
  sample_main offline_run 1 []
    = (Raised RequestException, [EvHttp sample_token_call]).
Proof.
  refine (proj1 (token_step_failures tenant client secret site
                   (scenario_server offline_run) 1 []) _).
  reflexivity.
Defined.

Lemma falsy_link_ends_listing_witness :
  paginated_get (scenario_server empty_link_run) 1 (JStr users_endpoint)
    sample_headers []
    = (Returned [u1; u2], [EvHttp (get_request users_endpoint sample_headers)]).
Proof.
  refine (falsy_link_ends_listing (scenario_server empty_link_run) 1
            sample_headers [] [] users_endpoint page_empty_link
            [("value", JArr [u1; u2]); ("@odata.nextLink", JStr "")]
            [u1; u2] (JStr "") _ _ _ _ _ _ _ _ _).
  - exact I.
  - discriminate.
  - reflexivity.
  - simpl. lia.
  - reflexivity.
  - reflexivity.
  - reflexivity.
  - reflexivity.
  - simpl. lia.
Defined.

Lemma value_not_iterable_aborts_run_witness :
  sample_main null_value_run 1 []
    = (Raised TypeError,
       [EvHttp sample_token_call;
        EvHttp (get_request users_endpoint sample_headers)]).
Proof.
  refine (value_not_iterable_aborts_run tenant client secret site
            (scenario_server null_value_run) 1 [] (JStr "T1")
            [] users_endpoint page_null_value [("value", JNull)] JNull
            _ _ _ _ _ _ _ _ _ _).
  - sample_token.
  - reflexivity.
  - exact I.
  - discriminate.
  - reflexivity.
  - simpl. lia.
  - reflexivity.
  - reflexivity.
  - exact I.
  - simpl. lia.
Defined.

Lemma listing_call_dropped_aborts_run_witness :
  sample_main dropped_page_run 2 []
    = (Raised RequestException,
       [EvHttp sample_token_call;
        EvHttp (get_request users_endpoint sample_headers);
        EvHttp (get_request second_page sample_headers)]).
Proof.
  refine (listing_call_dropped_aborts_run tenant client secret site
            (scenario_server dropped_page_run) 2 [] (JStr "T1")
            one_page_listing second_page _ _ _ _ _ _).
  - sample_token.
  - reflexivity.
  - simpl. split; [discriminate|]. split; [sample_page|]. exact I.
  - discriminate.
  - reflexivity.
  - simpl. lia.
Defined.

Lemma endless_listing_never_returns_witness :
  exists tr' : trace,
    paginated_get_loop (scenario_server looping_run) 3 (JStr users_endpoint)
      sample_headers [] []
      = (Diverged, tr')
    /\ List.length (requests_of tr') = (0 + 3)%nat.
Proof.
  refine (endless_listing_never_returns (scenario_server looping_run)
            sample_headers _ 3 users_endpoint [] [] _).
  - intros h u. exists page_u1_u2_more, [u1; u2], second_page.
    split; [reflexivity|]. split; [|discriminate].
    split; [simpl; lia|].
    eexists. split; [reflexivity|]. split; reflexivity.
  - discriminate.
Defined.

Lemma follow_call_dropped_aborts_run_witness :
  exists evs : trace,
    sample_main dropped_follow_run 1 []
      = (Raised RequestException,
         [EvHttp sample_token_call;
          EvHttp (get_request users_endpoint sample_headers)] ++ evs)
    /\ requests_of evs = [sample_follow "u1"; sample_follow "u2"].
Proof.
  refine (follow_call_dropped_aborts_run tenant client secret site
            (scenario_server dropped_follow_run) 1 []
            [EvHttp sample_token_call;
             EvHttp (get_request users_endpoint sample_headers)]
            (JStr "T1") [u1] [JStr "u1"] u2 (JStr "u2") [] _ _ _ _ _ _).
  - sample_token.
  - reflexivity.
  - repeat constructor.
  - reflexivity.
  - intros [|[|k]] j Hnth; simpl in Hnth; try discriminate Hnth.
    injection Hnth as <-. simpl. discriminate.
  - reflexivity.
Defined.

Lemma non_object_record_aborts_run_witness :
  exists evs : trace,
    sample_main bad_record_run 1 []
      = (Raised TypeError,
         [EvHttp sample_token_call;
          EvHttp (get_request users_endpoint sample_headers)] ++ evs)
    /\ requests_of evs = [sample_follow "u1"].
Proof.
  refine (non_object_record_aborts_run tenant client secret site
            (scenario_server bad_record_run) 1 []
            [EvHttp sample_token_call;
             EvHttp (get_request users_endpoint sample_headers)]
            (JStr "T1") [u1] [JStr "u1"] (JStr "oops") [u3] _ _ _ _ _).
  - sample_token.
  - reflexivity.
  - repeat constructor.
  - sample_follow_answers.
  - discriminate.
Defined.

Lemma run_events_in_order_witness :
  exists rows : list (pyval * pyval * fstr),
    sample_main single_page_run 1 []
      = (Returned tt,
         [EvHttp sample_token_call;
          EvHttp (get_request users_endpoint sample_headers)]
           ++ EvPrint (found_line [u1; u2])
           :: flat_map (user_events site sample_headers) rows)
    /\ Forall2 (row_of site) [u1; u2] rows.
Proof.
  refine (run_events_in_order tenant client secret site
            (scenario_server single_page_run) 1 []
            [EvHttp sample_token_call;
             EvHttp (get_request users_endpoint sample_headers)]
            (JStr "T1") [u1; u2] [JStr "u1"; JStr "u2"] _ _ _ _).
  - sample_token.
  - reflexivity.
  - repeat constructor.
  - sample_follow_answers.
Defined.

